(** * bitbucket/api.py: a shallow embedding and its verified contract

    The module [bitbucket/api.py] is a thin wrapper over Bitbucket's REST
    API.  This development embeds it in Rocq:

    - Python [str] and [bytes] values are byte strings ([string]); only the
      ASCII range is interpreted (whitespace, digits, letter case).
    - A method is a computation in the monad [M O]: it reads the receiver
      object of type [O], may append events (a [print], a call of [urlopen])
      to the event log, and ends in a value or in a raised exception.  The
      receiver is threaded through every call so that a write to one of its
      attributes would be visible in the final store.
    - What the module imports (urllib, oauthlib, json, the codec) is an
      [Env]: the operations are defined for every environment. *)

From Stdlib Require Import ZArith NArith Ascii String List Bool Lia.
From stdpp Require Import base option list strings gmap.

Local Open Scope string_scope.
#[local] Arguments String.append !_ _ / : simpl nomatch.

(** ** Byte strings *)

(** Truth value of a Python string: the empty string is false. *)
Definition truthy (s : string) : bool :=
  match s with
  | EmptyString => false
  | String _ _ => true
  end.

(** [all(iterable)] on a tuple of strings. *)
Definition all_ (xs : list string) : bool := forallb truthy xs.

(** [str.isspace] on the ASCII range: TAB..CR, FS..US and the blank. *)
Definition is_space (c : ascii) : bool :=
  let n := nat_of_ascii c in
  ((9 <=? n) && (n <=? 13) || (28 <=? n) && (n <=? 32))%nat.

Fixpoint lstrip (s : string) : string :=
  match s with
  | String c s' => if is_space c then lstrip s' else s
  | EmptyString => EmptyString
  end.

(** [rstrip]: a suffix made of whitespace only is dropped. *)
Fixpoint rstrip (s : string) : string :=
  match s with
  | EmptyString => EmptyString
  | String c s' =>
      match rstrip s' with
      | EmptyString => if is_space c then EmptyString else String c EmptyString
      | r => String c r
      end
  end.

(** [s.strip()] *)
Definition strip (s : string) : string := rstrip (lstrip s).

(** [s.split(sep)[0]]: the part of [s] before the first [sep]. *)
Fixpoint split_head (sep : ascii) (s : string) : string :=
  match s with
  | EmptyString => EmptyString
  | String c s' =>
      if Ascii.eqb c sep then EmptyString else String c (split_head sep s')
  end.

Definition is_upper (c : ascii) : bool :=
  let n := nat_of_ascii c in ((65 <=? n) && (n <=? 90))%nat.
Definition is_lower (c : ascii) : bool :=
  let n := nat_of_ascii c in ((97 <=? n) && (n <=? 122))%nat.
Definition is_digit (c : ascii) : bool :=
  let n := nat_of_ascii c in ((48 <=? n) && (n <=? 57))%nat.

Definition to_upper (c : ascii) : ascii :=
  if is_lower c then ascii_of_nat (nat_of_ascii c - 32) else c.
Definition to_lower (c : ascii) : ascii :=
  if is_upper c then ascii_of_nat (nat_of_ascii c + 32) else c.

Fixpoint lower (s : string) : string :=
  match s with
  | EmptyString => EmptyString
  | String c s' => String (to_lower c) (lower s')
  end.

(** [s.capitalize()] *)
Definition capitalize (s : string) : string :=
  match s with
  | EmptyString => EmptyString
  | String c s' => String (to_upper c) (lower s')
  end.

(** [sep.join(parts)] *)
Fixpoint join (sep : string) (parts : list string) : string :=
  match parts with
  | [] => ""
  | [p] => p
  | p :: ps => p ++ sep ++ join sep ps
  end.

(** ** base64.b64encode *)

Definition b64_alphabet : string :=
  "ABCDEFGHIJKLMNOPQRSTUVWXYZabcdefghijklmnopqrstuvwxyz0123456789+/".

Definition b64_char (i : N) : ascii :=
  match String.get (N.to_nat i) b64_alphabet with
  | Some c => c
  | None => "="%char
  end.

Definition sextet (n : N) (k : N) : ascii :=
  b64_char (N.land (N.shiftr n (6 * k)) 63).

(** Three input bytes give four output characters; one or two trailing
    bytes are zero-filled and the output is padded with [=]. *)
Fixpoint b64encode (s : string) : string :=
  match s with
  | EmptyString => EmptyString
  | String a EmptyString =>
      let n := N.shiftl (N_of_ascii a) 16 in
      String (sextet n 3) (String (sextet n 2) "==")
  | String a (String b EmptyString) =>
      let n := N.lor (N.shiftl (N_of_ascii a) 16) (N.shiftl (N_of_ascii b) 8) in
      String (sextet n 3) (String (sextet n 2) (String (sextet n 1) "="))
  | String a (String b (String c rest)) =>
      let n := N.lor (N.lor (N.shiftl (N_of_ascii a) 16)
                            (N.shiftl (N_of_ascii b) 8)) (N_of_ascii c) in
      String (sextet n 3) (String (sextet n 2)
        (String (sextet n 1) (String (sextet n 0) (b64encode rest))))
  end.

(** ** urllib.parse.urlencode *)

Definition hex_digit (n : nat) : ascii :=
  match String.get n "0123456789ABCDEF" with
  | Some c => c
  | None => "0"%char
  end.

(** Characters that [quote_plus] never escapes. *)
Definition unreserved (c : ascii) : bool :=
  is_upper c || is_lower c || is_digit c ||
  Ascii.eqb c "_" || Ascii.eqb c "." || Ascii.eqb c "-" || Ascii.eqb c "~".

Fixpoint quote_plus (s : string) : string :=
  match s with
  | EmptyString => EmptyString
  | String c s' =>
      if unreserved c then String c (quote_plus s')
      else if Ascii.eqb c " " then String "+" (quote_plus s')
      else let n := nat_of_ascii c in
           String "%" (String (hex_digit (n / 16))
                      (String (hex_digit (n mod 16)) (quote_plus s')))
  end.

(** [urlencode(query)] on the items of a mapping of strings. *)
Definition urlencode (query : list (string * string)) : string :=
  join "&" (map (fun kv => quote_plus kv.1 ++ "=" ++ quote_plus kv.2) query).

(** ** urllib.request.Request *)

(** A request object.  [headers] is the dictionary that [Request.__init__]
    fills through [add_header], which stores every key capitalized.
    [get_method_attr] is the instance attribute [get_method], absent on a
    freshly constructed request. *)
Record Request := mkRequest {
  full_url : string;
  data : option string;
  headers : gmap string string;
  get_method_attr : option string;
}.

(** [Request(url, data, headers)] *)
Definition Request_init (url : string) (data : option string)
    (hdrs : list (string * string)) : Request :=
  {| full_url := url;
     data := data;
     headers := foldl (fun m kv => <[capitalize kv.1 := kv.2]> m) ∅ hdrs;
     get_method_attr := None |}.

(** [request.get_method = lambda: method] *)
Definition set_get_method (method : string) (r : Request) : Request :=
  {| full_url := full_url r;
     data := data r;
     headers := headers r;
     get_method_attr := Some method |}.

(** [request.get_method()]: the instance attribute when it was set, else the
    class's method, which answers by the presence of a body. *)
Definition get_method (r : Request) : string :=
  match get_method_attr r with
  | Some m => m
  | None => match data r with Some _ => "POST" | None => "GET" end
  end.

(** [request.has_header(name)] and [request.get_header(name)] *)
Definition get_header (name : string) (r : Request) : option string :=
  headers r !! name.

(** ** JSON values *)

#[local] Unset Elimination Schemes.
Inductive JSON :=
| JNull
| JBool (b : bool)
| JInt (n : Z)
| JString (s : string)
| JArray (items : list JSON)
| JObject (members : list (string * JSON)).
#[local] Set Elimination Schemes.

Fixpoint assoc_get {V} (k : string) (kvs : list (string * V)) : option V :=
  match kvs with
  | [] => None
  | (k', v) :: rest => if String.eqb k k' then Some v else assoc_get k rest
  end.

(** [d[k] = v] on a dictionary kept in insertion order. *)
Fixpoint assoc_set {V} (k : string) (v : V) (kvs : list (string * V))
    : list (string * V) :=
  match kvs with
  | [] => [(k, v)]
  | (k', v') :: rest =>
      if String.eqb k k' then (k, v) :: rest else (k', v') :: assoc_set k v rest
  end.

(** ** Exceptions, events, environment *)

Inductive exn :=
| AuthenticationRequired (msg : string)
| Exception (msg : string)
| SystemExit (code : Z)
| URLError (reason : string)
| HTTPError (code : Z)
| UnicodeDecodeError
| JSONDecodeError
| KeyError (key : string)
| TypeError
| ValueError (msg : string).

(** What [urlopen(request).read()] raises. *)
Inductive transport_error :=
| url_error (reason : string)
| http_error (code : Z).

Definition exn_of_transport (e : transport_error) : exn :=
  match e with
  | url_error r => URLError r
  | http_error c => HTTPError c
  end.

(** An observable effect: [print(template.format(args...))], or the
    transmission of a request by [urlopen]. *)
Inductive event :=
| Print (template : string) (args : list string)
| UrlOpen (r : Request).

Definition is_network (e : event) : bool :=
  match e with
  | UrlOpen _ => true
  | Print _ _ => false
  end.

(** The imported libraries.  [oauthlib] is [None] when [import
    oauthlib.oauth1] fails; otherwise it maps a client key, a client secret
    and a URL to the triple [(uri, headers, body)] that
    [Client(key, client_secret=secret).sign(url)] returns. *)
Record Env := mkEnv {
  oauthlib : option (string -> string -> string ->
                     string * list (string * string) * option string);
  urlopen_read : Request -> transport_error + string;
  decode_utf_8 : string -> option string;
  json_loads : string -> option JSON;
}.

(** ** The monad of methods *)

Record store (O : Type) := Store { obj : O; log : list event }.
Arguments Store {O} _ _.
Arguments obj {O} _.
Arguments log {O} _.

Definition M (O A : Type) : Type := store O -> (exn + A) * store O.

Definition ret {O A} (a : A) : M O A := fun s => (inr a, s).

Definition bind {O A B} (m : M O A) (k : A -> M O B) : M O B :=
  fun s =>
    match m s with
    | (inl e, s') => (inl e, s')
    | (inr a, s') => k a s'
    end.

Definition raise {O A} (e : exn) : M O A := fun s => (inl e, s).

(** Reading [self]. *)
Definition get_self {O} : M O O := fun s => (inr (obj s), s).

Definition emit {O} (e : event) : M O unit :=
  fun s => (inr tt, Store (obj s) (log s ++ [e])).

Definition when {O} (b : bool) (m : M O unit) : M O unit :=
  if b then m else ret tt.

#[export] Instance M_ret {O} : MRet (M O) := @ret O.
#[export] Instance M_bind {O} : MBind (M O) := fun A B k m => bind m k.

Definition result {O A} (r : (exn + A) * store O) : exn + A := fst r.
Definition final {O A} (r : (exn + A) * store O) : store O := snd r.

(** ** The module's globals and classes *)

Definition api_toplevel : string := "https://api.bitbucket.org/".
Definition api_base : string := api_toplevel ++ "2.0/".

Module BitBucket.
Record t := mk {
  username : string;
  password : string;
  oauth_key : string;
  oauth_secret : string;
  verbose : bool;
}.

(** [BitBucket.__init__], every argument given. *)
Definition __init__ (username password oauth_key oauth_secret : string)
    (verbose : bool) : t :=
  mk username password oauth_key oauth_secret verbose.
End BitBucket.

Module User.
(** [bb] is the client the handle was made from; [username] is [None]
    for the authenticated caller. *)
Record t := mk {
  bb : BitBucket.t;
  username : option string;
}.

Definition __init__ (bb : BitBucket.t) (username : option string) : t :=
  mk bb username.
End User.

(** The object whose [username] and [password] the authentication guard
    reads: [self.bb] if [hasattr(self, 'bb')], else [self]. *)
Class AuthSource (O : Type) := auth_source : O -> BitBucket.t.

#[export] Instance BitBucket_auth : AuthSource BitBucket.t := fun self => self.
#[export] Instance User_auth : AuthSource User.t := fun self => User.bb self.

(** The decorator; [name] is [method.__name__]. *)
Definition requires_authentication {O A} `{AuthSource O}
    (name : string) (method : M O A) : M O A :=
  self ← get_self;
  let username := BitBucket.username (auth_source self) in
  let password := BitBucket.password (auth_source self) in
  if negb (all_ [username; password])
  then raise (AuthenticationRequired (name ++ " requires authentication"))
  else method.

(** A call [self.bb.m(...)] made from a method of [User]: [m] runs on the
    client the handle refers to, and the handle sees what [m] did to it. *)
Definition via_bb {A} (m : M BitBucket.t A) : M User.t A :=
  fun s =>
    let r := m (Store (User.bb (obj s)) (log s)) in
    (fst r, Store (User.mk (obj (snd r)) (User.username (obj s))) (log (snd r))).

Section Methods.
Context (env : Env).

(** [urlopen(request).read()] *)
Definition urlopen (request : Request) : M BitBucket.t string :=
  emit (UrlOpen request) ;;
  match urlopen_read env request with
  | inl e => raise (exn_of_transport e)
  | inr payload => ret payload
  end.

(** [payload.decode('utf-8')] *)
Definition decode {O} (payload : string) : M O string :=
  match decode_utf_8 env payload with
  | Some text => ret text
  | None => raise UnicodeDecodeError
  end.

(** [json.loads(text)] *)
Definition loads {O} (text : string) : M O JSON :=
  match json_loads env text with
  | Some j => ret j
  | None => raise JSONDecodeError
  end.

(** [value[key]] for a string [key]. *)
Definition subscript {O} (value : JSON) (key : string) : M O JSON :=
  match value with
  | JObject members =>
      match assoc_get key members with
      | Some v => ret v
      | None => raise (KeyError key)
      end
  | _ => raise TypeError
  end.

(** *** class BitBucket *)

Definition build_request (url : string) (method : string)
    (data : option string) : M BitBucket.t Request :=
  self ← get_self;
  if all_ [BitBucket.oauth_key self; BitBucket.oauth_secret self] then
    match oauthlib env with
    | None =>
        emit (Print "You must install oauthlib if you want to use oauth `pip install oauthlib`" []) ;;
        raise (SystemExit 0)
    | Some sign =>
        let '(uri, headers, body) :=
          sign (BitBucket.oauth_key self) (BitBucket.oauth_secret self) url in
        let request := Request_init url data headers in
        ret request
    end
  else if all_ [BitBucket.username self; BitBucket.password self] then
    let auth := BitBucket.username self ++ ":" ++ BitBucket.password self in
    let auth := [("Authorization", "Basic " ++ strip (b64encode auth))] in
    let request := Request_init url data auth in
    let request := set_get_method method request in
    ret request
  else ret (Request_init url None []).

Definition load_url (url : string) (method : string)
    (data : option string) : M BitBucket.t string :=
  self ← get_self;
  when (BitBucket.verbose self)
       (emit (Print "Sending request to: [{0}]" [url])) ;;
  request ← build_request url method data;
  result ← urlopen request;
  self ← get_self;
  when (BitBucket.verbose self)
       (emit (Print "Response data: [{0}]" [result])) ;;
  ret result.

Definition user (username : option string) : M BitBucket.t User.t :=
  self ← get_self;
  ret (User.__init__ self username).

(** The body of [emails], before decoration. *)
Definition emails_body : M BitBucket.t JSON :=
  let url := api_base ++ "emails/" in
  payload ← load_url url "GET" None;
  loads payload.

Definition emails : M BitBucket.t JSON :=
  requires_authentication "emails" emails_body.

(** The body of [create_repo], before decoration. *)
Definition create_repo_body (repo_data : list (string * string))
    : M BitBucket.t JSON :=
  let url := api_base ++ "repositories/" in
  payload ← load_url url "POST" (Some (urlencode repo_data));
  loads payload.

Definition create_repo (repo_data : list (string * string))
    : M BitBucket.t JSON :=
  requires_authentication "create_repo" (create_repo_body repo_data).

(** [BitBucket.__repr__] *)
Definition BitBucket_repr : M BitBucket.t string :=
  self ← get_self;
  let extra := "" in
  let extra :=
    if all_ [BitBucket.username self; BitBucket.password self]
    then " (auth: " ++ BitBucket.username self ++ ")"
    else extra in
  ret ("<BitBucket API" ++ extra ++ ">").

(** *** class User *)

Definition get : M User.t JSON :=
  self ← get_self;
  let url :=
    match User.username self with
    | None => api_base ++ "user/"
    | Some username => api_base ++ "teams/" ++ username
    end in
  payload ← via_bb (load_url url "GET" None);
  text ← decode payload;
  loads text.

Definition get_repos : M User.t JSON :=
  self ← get_self;
  match User.username self with
  | None => raise (Exception "username missing")
  | Some username =>
      let url := api_base ++ "repositories/" ++ username ++ "?pagelen=100" in
      payload ← via_bb (load_url url "GET" None);
      text ← decode payload;
      loads text
  end.

Definition repositories : M User.t JSON :=
  repos ← get_repos;
  subscript repos "values".

(** [str(None)] is ["None"]. *)
Definition User_repr : M User.t string :=
  self ← get_self;
  ret ("<User: " ++ default "None" (User.username self) ++ ">").

End Methods.

(** ** to_datetime *)

Local Open Scope Z_scope.

(** *** datetime's calendar arithmetic *)

Definition is_leap (year : Z) : bool :=
  (year mod 4 =? 0) && (negb (year mod 100 =? 0) || (year mod 400 =? 0)).

Definition days_before_year (year : Z) : Z :=
  let y := year - 1 in y * 365 + y / 4 - y / 100 + y / 400.

Definition DAYS_IN_MONTH : list Z :=
  [-1; 31; 28; 31; 30; 31; 30; 31; 31; 30; 31; 30; 31].

Definition DAYS_BEFORE_MONTH : list Z :=
  [-1; 0; 31; 59; 90; 120; 151; 181; 212; 243; 273; 304; 334].

Definition days_in_month (year month : Z) : Z :=
  if (month =? 2) && is_leap year then 29
  else nth (Z.to_nat month) DAYS_IN_MONTH 0.

Definition days_before_month (year month : Z) : Z :=
  nth (Z.to_nat month) DAYS_BEFORE_MONTH 0 +
  (if (2 <? month) && is_leap year then 1 else 0).

Definition ymd2ord (year month day : Z) : Z :=
  days_before_year year + days_before_month year month + day.

(** [date(year, month, day).weekday()]: Monday is 0, Sunday is 6. *)
Definition weekday (year month day : Z) : Z :=
  (ymd2ord year month day + 6) mod 7.

(** The checks of [date(year, month, day)]. *)
Definition check_date_fields (year month day : Z) : option exn :=
  if negb ((1 <=? year) && (year <=? 9999))
  then Some (ValueError "year is out of range")
  else if negb ((1 <=? month) && (month <=? 12))
  then Some (ValueError "month must be in 1..12")
  else if negb ((1 <=? day) && (day <=? days_in_month year month))
  then Some (ValueError "day is out of range for month")
  else None.

Definition check_time_fields (hour minute second microsecond : Z) : option exn :=
  if negb ((0 <=? hour) && (hour <=? 23))
  then Some (ValueError "hour must be in 0..23")
  else if negb ((0 <=? minute) && (minute <=? 59))
  then Some (ValueError "minute must be in 0..59")
  else if negb ((0 <=? second) && (second <=? 59))
  then Some (ValueError "second must be in 0..59")
  else if negb ((0 <=? microsecond) && (microsecond <=? 999999))
  then Some (ValueError "microsecond must be in 0..999999")
  else None.

Record datetime := mk_datetime {
  year : Z;
  month : Z;
  day : Z;
  hour : Z;
  minute : Z;
  second : Z;
  microsecond : Z;
}.

(** [datetime.datetime(args...)] for a tuple of integers: the positional
    parameters are year, month, day, hour, minute, second, microsecond, the
    last four defaulting to 0 (an eighth would be [tzinfo]). *)
Definition datetime_datetime (args : list Z) : exn + datetime :=
  match args with
  | year :: month :: day :: rest =>
      if (4 <? Z.of_nat (length rest)) then inl TypeError
      else
        let hour := nth 0 rest 0 in
        let minute := nth 1 rest 0 in
        let second := nth 2 rest 0 in
        let microsecond := nth 3 rest 0 in
        match check_date_fields year month day with
        | Some e => inl e
        | None =>
            match check_time_fields hour minute second microsecond with
            | Some e => inl e
            | None =>
                inr (mk_datetime year month day hour minute second microsecond)
            end
        end
  | _ => inl TypeError
  end.

(** *** time.strptime with the format [%Y-%m-%d %H:%M:%S]

    [strptime] turns the format into a regular expression and matches it
    against the start of the text with a backtracking matcher.  A matcher
    [re A] lists the ways to match a prefix, in the order in which
    backtracking tries them, each with the value read and the text left. *)

Definition re (A : Type) : Type := string -> list (A * string).

Definition re_ret {A} (a : A) : re A := fun s => [(a, s)].

Definition re_bind {A B} (p : re A) (k : A -> re B) : re B :=
  fun s => flat_map (fun r => k r.1 r.2) (p s).

Definition re_alt {A} (p q : re A) : re A := fun s => (p s ++ q s)%list.

(** A literal character. *)
Definition re_char (c : ascii) : re unit :=
  fun s =>
    match s with
    | String c' s' => if Ascii.eqb c c' then [(tt, s')] else []
    | EmptyString => []
    end.

(** A character class of digits [[lo-hi]]; the value is the digit's. *)
Definition re_range (lo hi : Z) : re Z :=
  fun s =>
    match s with
    | String c s' =>
        let v := Z.of_nat (nat_of_ascii c) - 48 in
        if (lo <=? v) && (v <=? hi) then [(v, s')] else []
    | EmptyString => []
    end.

Definition re_d : re Z := re_range 0 9.

(** [\s+], greedy: the longest run of whitespace is tried first. *)
Fixpoint re_spaces (s : string) : list (unit * string) :=
  match s with
  | String c s' => if is_space c then (re_spaces s' ++ [(tt, s')])%list else []
  | EmptyString => []
  end.

(** A two-character alternative whose first character is the digit [a]. *)
Definition re_lit_then (a : Z) (lo hi : Z) : re Z :=
  re_bind (re_range a a) (fun _ => re_bind (re_range lo hi) (fun b =>
  re_ret (10 * a + b))).

Definition re_two (lo1 hi1 lo2 hi2 : Z) : re Z :=
  re_bind (re_range lo1 hi1) (fun a => re_bind (re_range lo2 hi2) (fun b =>
  re_ret (10 * a + b))).

(** [%Y]: [\d\d\d\d] *)
Definition re_Y : re Z :=
  re_bind re_d (fun a => re_bind re_d (fun b =>
  re_bind re_d (fun c => re_bind re_d (fun d =>
  re_ret (1000 * a + 100 * b + 10 * c + d))))).

(** [%m]: [1[0-2]|0[1-9]|[1-9]] *)
Definition re_m : re Z :=
  re_alt (re_lit_then 1 0 2) (re_alt (re_lit_then 0 1 9) (re_range 1 9)).

(** [%d]: [3[0-1]|[1-2]\d|0[1-9]|[1-9]| [1-9]] *)
Definition re_day : re Z :=
  re_alt (re_lit_then 3 0 1) (re_alt (re_two 1 2 0 9)
  (re_alt (re_lit_then 0 1 9) (re_alt (re_range 1 9)
  (re_bind (re_char " ") (fun _ => re_range 1 9))))).

(** [%H]: [2[0-3]|[0-1]\d|\d] *)
Definition re_H : re Z :=
  re_alt (re_lit_then 2 0 3) (re_alt (re_two 0 1 0 9) re_d).

(** [%M]: [[0-5]\d|\d] *)
Definition re_M : re Z := re_alt (re_two 0 5 0 9) re_d.

(** [%S]: [6[0-1]|[0-5]\d|\d] *)
Definition re_S : re Z :=
  re_alt (re_lit_then 6 0 1) (re_alt (re_two 0 5 0 9) re_d).

(** The whole format; blanks of the format stand for [\s+]. *)
Definition re_format : re (Z * Z * Z * Z * Z * Z) :=
  re_bind re_Y (fun Y => re_bind (re_char "-") (fun _ =>
  re_bind re_m (fun m => re_bind (re_char "-") (fun _ =>
  re_bind re_day (fun d => re_bind re_spaces (fun _ =>
  re_bind re_H (fun H => re_bind (re_char ":") (fun _ =>
  re_bind re_M (fun Mi => re_bind (re_char ":") (fun _ =>
  re_bind re_S (fun Sec => re_ret (Y, m, d, H, Mi, Sec)))))))))))).

(** [time.strptime(data_string, '%Y-%m-%d %H:%M:%S')] as the 9-tuple
    [(tm_year, tm_mon, tm_mday, tm_hour, tm_min, tm_sec, tm_wday, tm_yday,
    tm_isdst)]: the first match decides; text left over is an error; the
    weekday and the day of the year come from [date(year, month, day)]. *)
Definition strptime (data_string : string) : exn + list Z :=
  match re_format data_string with
  | [] => inl (ValueError "time data does not match format")
  | (Y, m, d, H, Mi, Sec, rest) :: _ =>
      match rest with
      | String _ _ => inl (ValueError "unconverted data remains")
      | EmptyString =>
          match check_date_fields Y m d with
          | Some e => inl e
          | None =>
              let julian := ymd2ord Y m d - ymd2ord Y 1 1 + 1 in
              inr [Y; m; d; H; Mi; Sec; weekday Y m d; julian; -1]
          end
      end
  end.

Definition to_datetime (timestring : string) : exn + datetime :=
  let timestring := strip (split_head "+" timestring) in
  match strptime timestring with
  | inl e => inl e
  | inr tm => datetime_datetime (firstn 7 tm)
  end.

(** *** Rendering a timestamp: [YYYY-MM-DD HH:MM:SS] *)

Definition digit_char (d : Z) : ascii := ascii_of_nat (48 + Z.to_nat d).

Definition pad2 (n : Z) : string :=
  String (digit_char (n / 10)) (String (digit_char (n mod 10)) EmptyString).

Definition pad4 (n : Z) : string :=
  String (digit_char (n / 1000)) (String (digit_char (n / 100 mod 10))
    (pad2 (n mod 100))).

Definition timestamp (Y m d H Mi Sec : Z) : string :=
  (pad4 Y ++ "-" ++ pad2 m ++ "-" ++ pad2 d ++ " " ++
   pad2 H ++ ":" ++ pad2 Mi ++ ":" ++ pad2 Sec)%string.

Fixpoint all_chars (P : ascii -> bool) (s : string) : bool :=
  match s with
  | EmptyString => true
  | String c s' => P c && all_chars P s'
  end.

Local Close Scope Z_scope.

(** ** A JSON decoder and stub environments, to run the operations

    The theorems below hold for every environment.  To run the operations
    on canned responses there is a decoder for the JSON texts without
    escapes in strings and without fractions or exponents in numbers (on any
    other text it answers [None]), and an environment whose transport
    returns one canned payload for every request. *)

Definition dquote : ascii := ascii_of_nat 34.

(** JSON whitespace: blank, TAB, LF, CR. *)
Definition is_json_ws (c : ascii) : bool :=
  Ascii.eqb c " " || Ascii.eqb c (ascii_of_nat 9) ||
  Ascii.eqb c (ascii_of_nat 10) || Ascii.eqb c (ascii_of_nat 13).

Fixpoint skip_ws (s : string) : string :=
  match s with
  | String c s' => if is_json_ws c then skip_ws s' else s
  | EmptyString => EmptyString
  end.

(** The characters up to the closing quote; a backslash is refused. *)
Fixpoint scan_string (s : string) : option (string * string) :=
  match s with
  | EmptyString => None
  | String c s' =>
      if Ascii.eqb c dquote then Some (EmptyString, s')
      else if Ascii.eqb c "\" then None
      else match scan_string s' with
           | Some (body, rest) => Some (String c body, rest)
           | None => None
           end
  end.

Fixpoint scan_digits (acc : Z) (s : string) : Z * string :=
  match s with
  | String c s' =>
      if is_digit c
      then scan_digits (10 * acc + (Z.of_nat (nat_of_ascii c) - 48))%Z s'
      else (acc, s)
  | EmptyString => (acc, s)
  end.

Definition starts_number_tail (s : string) : bool :=
  match s with
  | String c _ => Ascii.eqb c "." || Ascii.eqb c "e" || Ascii.eqb c "E"
  | EmptyString => false
  end.

Definition scan_int (s : string) : option (Z * string) :=
  let '(neg, s1) :=
    match s with
    | String "-" s' => (true, s')
    | _ => (false, s)
    end in
  match s1 with
  | String c _ =>
      if is_digit c then
        let '(n, rest) := scan_digits 0 s1 in
        if starts_number_tail rest then None
        else Some (if neg then (- n)%Z else n, rest)
      else None
  | EmptyString => None
  end.

Fixpoint drop_prefix (p s : string) : option string :=
  match p, s with
  | EmptyString, _ => Some s
  | String a p', String b s' => if Ascii.eqb a b then drop_prefix p' s' else None
  | String _ _, EmptyString => None
  end.

Fixpoint parse_value (fuel : nat) (s : string) : option (JSON * string) :=
  match fuel with
  | O => None
  | S fuel =>
      match skip_ws s with
      | EmptyString => None
      | String c rest =>
          if Ascii.eqb c "[" then
            match skip_ws rest with
            | String "]" r => Some (JArray [], r)
            | _ => parse_items fuel rest []
            end
          else if Ascii.eqb c "{" then
            match skip_ws rest with
            | String "}" r => Some (JObject [], r)
            | _ => parse_members fuel rest []
            end
          else if Ascii.eqb c dquote then
            match scan_string rest with
            | Some (body, r) => Some (JString body, r)
            | None => None
            end
          else
            match drop_prefix "null" (String c rest),
                  drop_prefix "true" (String c rest),
                  drop_prefix "false" (String c rest) with
            | Some r, _, _ => Some (JNull, r)
            | _, Some r, _ => Some (JBool true, r)
            | _, _, Some r => Some (JBool false, r)
            | None, None, None =>
                match scan_int (String c rest) with
                | Some (n, r) => Some (JInt n, r)
                | None => None
                end
            end
      end
  end
with parse_items (fuel : nat) (s : string) (acc : list JSON)
    : option (JSON * string) :=
  match fuel with
  | O => None
  | S fuel =>
      match parse_value fuel s with
      | Some (v, rest) =>
          match skip_ws rest with
          | String "," r => parse_items fuel r (acc ++ [v])
          | String "]" r => Some (JArray (acc ++ [v]), r)
          | _ => None
          end
      | None => None
      end
  end
with parse_members (fuel : nat) (s : string) (acc : list (string * JSON))
    : option (JSON * string) :=
  match fuel with
  | O => None
  | S fuel =>
      match skip_ws s with
      | String c rest =>
          if Ascii.eqb c dquote then
            match scan_string rest with
            | Some (key, r1) =>
                match skip_ws r1 with
                | String ":" r2 =>
                    match parse_value fuel r2 with
                    | Some (v, r3) =>
                        match skip_ws r3 with
                        | String "," r => parse_members fuel r (assoc_set key v acc)
                        | String "}" r => Some (JObject (assoc_set key v acc), r)
                        | _ => None
                        end
                    | None => None
                    end
                | _ => None
                end
            | None => None
            end
          else None
      | EmptyString => None
      end
  end.

Definition json_loads_lite (text : string) : option JSON :=
  match parse_value (2 * String.length text + 2) text with
  | Some (j, rest) =>
      match skip_ws rest with
      | EmptyString => Some j
      | String _ _ => None
      end
  | None => None
  end.

(** Writing JSON texts with ['] for the double quote. *)
Fixpoint requote (s : string) : string :=
  match s with
  | EmptyString => EmptyString
  | String c s' => String (if Ascii.eqb c "'" then dquote else c) (requote s')
  end.

Definition is_ascii (c : ascii) : bool := (nat_of_ascii c <? 128)%nat.

(** On ASCII text UTF-8 decoding is the identity; other text is refused. *)
Definition decode_ascii (payload : string) : option string :=
  if all_chars is_ascii payload then Some payload else None.

(** A signer that puts the client key in an [OAuth] authorization header. *)
Definition stub_sign (key secret url : string)
    : string * list (string * string) * option string :=
  (url, [("Authorization", "OAuth oauth_consumer_key=" ++ key)], None).

Definition stub_env (signer : bool) (payload : string) : Env :=
  {| oauthlib := if signer then Some stub_sign else None;
     urlopen_read := fun _ => inr payload;
     decode_utf_8 := decode_ascii;
     json_loads := json_loads_lite |}.

(** An environment whose transport fails. *)
Definition offline_env : Env :=
  {| oauthlib := Some stub_sign;
     urlopen_read := fun _ => inl (url_error "unreachable");
     decode_utf_8 := decode_ascii;
     json_loads := json_loads_lite |}.

(** Running a method on an object, from an empty event log. *)
Definition run {O A} (m : M O A) (self : O) : (exn + A) * store O :=
  m (Store self []).

Definition alice : BitBucket.t := BitBucket.__init__ "alice" "s3cret" "" "" false.
Definition anonymous : BitBucket.t := BitBucket.__init__ "" "" "" "" false.

Definition oauth_only : BitBucket.t := BitBucket.__init__ "" "" "key" "secret" false.

(** [self] with other values for [username] and [password]. *)
Definition with_basic (username password : string) (self : BitBucket.t) : BitBucket.t :=
  BitBucket.mk username password (BitBucket.oauth_key self)
    (BitBucket.oauth_secret self) (BitBucket.verbose self).


(** The OAuth branch can sign: [oauthlib] imports whenever both OAuth
    fields are set. *)
Definition can_sign (env : Env) (self : BitBucket.t) : Prop :=
  all_ [BitBucket.oauth_key self; BitBucket.oauth_secret self] = true ->
  is_Some (oauthlib env).

(** The requests transmitted, in order. *)
Definition transmitted (evs : list event) : list Request :=
  omap (fun e => match e with UrlOpen r => Some r | Print _ _ => None end) evs.

Definition not_space (c : ascii) : bool := negb (is_space c).

(** The outcome of [urlopen(request).read()]. *)
Definition transport_outcome (env : Env) (request : Request) : exn + string :=
  match urlopen_read env request with
  | inl e => inl (exn_of_transport e)
  | inr payload => inr payload
  end.

(** What a method returns once the transport has answered [urlopen] on
    [request]: the payload decoded as UTF-8 and parsed as JSON. *)
Definition decoded_response (env : Env) (request : Request) : exn + JSON :=
  match urlopen_read env request with
  | inl e => inl (exn_of_transport e)
  | inr payload =>
      match decode_utf_8 env payload with
      | None => inl UnicodeDecodeError
      | Some text =>
          match json_loads env text with
          | None => inl JSONDecodeError
          | Some j => inr j
          end
      end
  end.

(** Both OAuth fields are set; both Basic fields are set. *)
Definition oauth_set (self : BitBucket.t) : Prop :=
  BitBucket.oauth_key self <> "" /\ BitBucket.oauth_secret self <> "".
Definition basic_set (self : BitBucket.t) : Prop :=
  BitBucket.username self <> "" /\ BitBucket.password self <> "".

(** The value of the Basic [Authorization] header for a client. *)
Definition basic_token (self : BitBucket.t) : string :=
  "Basic " ++ b64encode (BitBucket.username self ++ ":" ++ BitBucket.password self).

(** [self] with another value for [verbose]. *)
Definition with_verbose (verbose : bool) (self : BitBucket.t) : BitBucket.t :=
  BitBucket.mk (BitBucket.username self) (BitBucket.password self)
    (BitBucket.oauth_key self) (BitBucket.oauth_secret self) verbose.

(** The two diagnostics of [load_url] and the hint of [build_request]. *)
Definition sending (url : string) : event :=
  Print "Sending request to: [{0}]" [url].
Definition response_data (payload : string) : event :=
  Print "Response data: [{0}]" [payload].
Definition oauthlib_hint : event :=
  Print "You must install oauthlib if you want to use oauth `pip install oauthlib`" [].

(** What a method returns once the transport has answered [urlopen] on
    [request], when it parses the raw payload as JSON. *)
Definition parsed_response (env : Env) (request : Request) : exn + JSON :=
  match urlopen_read env request with
  | inl e => inl (exn_of_transport e)
  | inr payload =>
      match json_loads env payload with
      | None => inl JSONDecodeError
      | Some j => inr j
      end
  end.

(** No character of the text is a [+]. *)
Definition no_plus (s : string) : bool :=
  all_chars (fun c => negb (Ascii.eqb c "+")) s.

(** The number of occurrences of a character in a text. *)
Fixpoint count_char (c : ascii) (s : string) : nat :=
  match s with
  | EmptyString => O
  | String c' s' => ((if Ascii.eqb c c' then 1 else 0) + count_char c s')%nat
  end.

(** * Properties *)

(** ** Strings *)

Lemma string_app_assoc (a b c : string) : (a ++ b) ++ c = a ++ (b ++ c).
Proof. induction a as [|x a IH]; simpl; [reflexivity | now f_equal]. Qed.

Lemma string_app_nil_r (a : string) : a ++ "" = a.
Proof. induction a as [|x a IH]; simpl; [reflexivity | now f_equal]. Qed.

Lemma truthy_true (s : string) : truthy s = true <-> s <> "".
Proof. destruct s; simpl; split; congruence. Qed.

Lemma truthy_false (s : string) : truthy s = false <-> s = "".
Proof. destruct s; simpl; split; congruence. Qed.

Lemma all_pair (a b : string) :
  all_ [a; b] = true <-> a <> "" /\ b <> "".
Proof.
  unfold all_; simpl. rewrite andb_true_r, andb_true_iff, !truthy_true. tauto.
Qed.

Lemma all_pair_false (a b : string) :
  all_ [a; b] = false <-> a = "" \/ b = "".
Proof.
  unfold all_; simpl. rewrite andb_true_r, andb_false_iff, !truthy_false. tauto.
Qed.

Lemma lstrip_not_space (c : ascii) (s : string) :
  is_space c = false -> lstrip (String c s) = String c s.
Proof. intros H. simpl. now rewrite H. Qed.

Lemma rstrip_all_not_space (s : string) :
  all_chars not_space s = true -> rstrip s = s.
Proof.
  induction s as [|c s IH]; simpl; [easy|].
  rewrite andb_true_iff. intros [Hc Hs]. rewrite (IH Hs).
  unfold not_space in Hc. apply negb_true_iff in Hc.
  destruct s; [now rewrite Hc | reflexivity].
Qed.

Lemma strip_all_not_space (s : string) :
  all_chars not_space s = true -> strip s = s.
Proof.
  intros H. unfold strip.
  assert (lstrip s = s) as ->.
  { destruct s as [|c s]; [reflexivity|]. simpl in H.
    apply andb_true_iff in H as [Hc _]. apply negb_true_iff in Hc.
    now apply lstrip_not_space. }
  now apply rstrip_all_not_space.
Qed.

Lemma b64_char_not_space (i : N) : not_space (b64_char i) = true.
Proof.
  unfold b64_char. generalize (N.to_nat i). intros n.
  do 64 (destruct n as [|n]; [reflexivity|]). reflexivity.
Qed.

Lemma b64encode_not_space_aux (s : string) :
  all_chars not_space (b64encode s) = true /\
  (forall a, all_chars not_space (b64encode (String a s)) = true) /\
  (forall a b, all_chars not_space (b64encode (String a (String b s))) = true).
Proof.
  induction s as [|c s (IH0 & IH1 & IH2)].
  - repeat split; intros; cbn [b64encode all_chars]; unfold sextet;
      rewrite ?b64_char_not_space; reflexivity.
  - split; [apply IH1|]. split; [intros a; apply IH2|].
    intros a b. cbn [b64encode all_chars]. unfold sextet.
    rewrite !b64_char_not_space. exact IH0.
Qed.

Lemma strip_b64encode (s : string) : strip (b64encode s) = b64encode s.
Proof. apply strip_all_not_space, b64encode_not_space_aux. Qed.

Lemma oauth_set_all (self : BitBucket.t) :
  oauth_set self ->
  all_ [BitBucket.oauth_key self; BitBucket.oauth_secret self] = true.
Proof. apply all_pair. Qed.

Lemma oauth_unset_all (self : BitBucket.t) :
  ~ oauth_set self ->
  all_ [BitBucket.oauth_key self; BitBucket.oauth_secret self] = false.
Proof. intros H. apply not_true_is_false. intros E. now apply all_pair in E. Qed.

Lemma basic_set_all (self : BitBucket.t) :
  basic_set self ->
  all_ [BitBucket.username self; BitBucket.password self] = true.
Proof. apply all_pair. Qed.

Lemma basic_unset_all (self : BitBucket.t) :
  ~ basic_set self ->
  all_ [BitBucket.username self; BitBucket.password self] = false.
Proof. intros H. apply not_true_is_false. intros E. now apply all_pair in E. Qed.

(** ** The monad *)

Ltac run_monad :=
  unfold mbind, M_bind, bind, ret, raise, get_self, emit, when, result, final.

Lemma bind_run {O A B} (m : M O A) (k : A -> M O B) (s : store O) :
  (m ≫= k) s =
  match m s with
  | (inl e, s') => (inl e, s')
  | (inr a, s') => k a s'
  end.
Proof. reflexivity. Qed.

(** ** build_request *)

Section BuildRequest.
Context (env : Env).
Implicit Types (self : BitBucket.t) (evs : list event) (url method : string).

Lemma build_request_oauth self evs url method data sign :
  all_ [BitBucket.oauth_key self; BitBucket.oauth_secret self] = true ->
  oauthlib env = Some sign ->
  build_request env url method data (Store self evs) =
  (inr (Request_init url data
          (sign (BitBucket.oauth_key self) (BitBucket.oauth_secret self) url).1.2),
   Store self evs).
Proof.
  intros Ho Hs. unfold build_request. run_monad. cbn [obj log].
  rewrite Ho, Hs.
  destruct (sign _ _ _) as [[uri hdrs] body]. reflexivity.
Qed.

Lemma build_request_no_oauthlib self evs url method data :
  all_ [BitBucket.oauth_key self; BitBucket.oauth_secret self] = true ->
  oauthlib env = None ->
  build_request env url method data (Store self evs) =
  (inl (SystemExit 0),
   Store self (evs ++ [Print "You must install oauthlib if you want to use oauth `pip install oauthlib`" []])).
Proof.
  intros Ho Hs. unfold build_request. run_monad. cbn [obj log].
  now rewrite Ho, Hs.
Qed.

Lemma build_request_basic self evs url method data :
  all_ [BitBucket.oauth_key self; BitBucket.oauth_secret self] = false ->
  all_ [BitBucket.username self; BitBucket.password self] = true ->
  build_request env url method data (Store self evs) =
  (inr (set_get_method method
          (Request_init url data
             [("Authorization",
               "Basic " ++ b64encode (BitBucket.username self ++ ":" ++
                                      BitBucket.password self))])),
   Store self evs).
Proof.
  intros Ho Hb. unfold build_request. run_monad. cbn [obj log].
  now rewrite Ho, Hb, strip_b64encode.
Qed.

Lemma build_request_anonymous self evs url method data :
  all_ [BitBucket.oauth_key self; BitBucket.oauth_secret self] = false ->
  all_ [BitBucket.username self; BitBucket.password self] = false ->
  build_request env url method data (Store self evs) =
  (inr (Request_init url None []), Store self evs).
Proof.
  intros Ho Hb. unfold build_request. run_monad. cbn [obj log].
  now rewrite Ho, Hb.
Qed.

(** Whatever the branch, a request that is built has the given URL, and
    the receiver and the transmitted requests are as before. *)
Lemma build_request_frame self evs url method data :
  let out := build_request env url method data (Store self evs) in
  obj (snd out) = self /\
  transmitted (log (snd out)) = transmitted evs /\
  (forall e, fst out = inl e -> e = SystemExit 0) /\
  (forall r, fst out = inr r -> full_url r = url) /\
  (can_sign env self -> exists r, fst out = inr r).
Proof.
  destruct (all_ [BitBucket.oauth_key self; BitBucket.oauth_secret self]) eqn:Ho.
  - destruct (oauthlib env) as [sign|] eqn:Hs.
    + rewrite (build_request_oauth _ _ _ _ _ sign Ho Hs). simpl.
      repeat split; try congruence; eauto.
      intros r [= <-]. reflexivity.
    + rewrite (build_request_no_oauthlib _ _ _ _ _ Ho Hs). simpl.
      repeat split; try congruence.
      * unfold transmitted. rewrite omap_app. simpl. apply app_nil_r.
      * intros Hc. destruct (Hc Ho) as [? ?]. congruence.
  - destruct (all_ [BitBucket.username self; BitBucket.password self]) eqn:Hb.
    + rewrite (build_request_basic _ _ _ _ _ Ho Hb). simpl.
      repeat split; try congruence; eauto.
      intros r [= <-]. reflexivity.
    + rewrite (build_request_anonymous _ _ _ _ _ Ho Hb). simpl.
      repeat split; try congruence; eauto.
      intros r [= <-]. reflexivity.
Qed.

(** Called with the method ["GET"] and no body, every branch builds a
    request whose method is ["GET"]. *)
Lemma build_request_get self evs url r s' :
  build_request env url "GET" None (Store self evs) = (inr r, s') ->
  get_method r = "GET".
Proof.
  destruct (all_ [BitBucket.oauth_key self; BitBucket.oauth_secret self]) eqn:Ho.
  - destruct (oauthlib env) as [sign|] eqn:Hs.
    + rewrite (build_request_oauth _ _ _ _ _ sign Ho Hs). now intros [= <- <-].
    + rewrite (build_request_no_oauthlib _ _ _ _ _ Ho Hs). discriminate.
  - destruct (all_ [BitBucket.username self; BitBucket.password self]) eqn:Hb.
    + rewrite (build_request_basic _ _ _ _ _ Ho Hb). now intros [= <- <-].
    + rewrite (build_request_anonymous _ _ _ _ _ Ho Hb). now intros [= <- <-].
Qed.

End BuildRequest.

(** ** load_url *)

Section LoadUrl.
Context (env : Env).
Implicit Types (self : BitBucket.t) (evs : list event) (url method : string).

Lemma build_request_log_irrelevant self evs evs' url method data :
  fst (build_request env url method data (Store self evs)) =
  fst (build_request env url method data (Store self evs')).
Proof.
  destruct (all_ [BitBucket.oauth_key self; BitBucket.oauth_secret self]) eqn:Ho.
  - destruct (oauthlib env) as [sign|] eqn:Hs.
    + now rewrite !(build_request_oauth _ _ _ _ _ _ sign Ho Hs).
    + now rewrite !(build_request_no_oauthlib _ _ _ _ _ _ Ho Hs).
  - destruct (all_ [BitBucket.username self; BitBucket.password self]) eqn:Hb.
    + now rewrite !(build_request_basic _ _ _ _ _ _ Ho Hb).
    + now rewrite !(build_request_anonymous _ _ _ _ _ _ Ho Hb).
Qed.

Lemma load_url_run self evs url method data :
  load_url env url method data (Store self evs) =
  let evs1 :=
    if BitBucket.verbose self
    then (evs ++ [Print "Sending request to: [{0}]" [url]])%list else evs in
  match build_request env url method data (Store self evs1) with
  | (inl e, s1) => (inl e, s1)
  | (inr r, s1) =>
      let evs2 := (log s1 ++ [UrlOpen r])%list in
      match urlopen_read env r with
      | inl e => (inl (exn_of_transport e), Store (obj s1) evs2)
      | inr payload =>
          (inr payload,
           Store (obj s1)
             (if BitBucket.verbose (obj s1)
              then (evs2 ++ [Print "Response data: [{0}]" [payload]])%list
              else evs2))
      end
  end.
Proof.
  unfold load_url, urlopen, when. run_monad. cbn [obj log].
  destruct (BitBucket.verbose self); cbn [obj log];
    (destruct (build_request env url method data _) as [[e|r] [self1 evs2]];
     [reflexivity|]; cbn [obj log];
     destruct (urlopen_read env r); [reflexivity|]; cbn [obj log];
     destruct (BitBucket.verbose self1); reflexivity).
Qed.

(** [load_url] leaves the receiver as it was; it either stops in the
    [sys.exit(0)] of [build_request] before any transmission, or
    transmits exactly the request that [build_request] built and ends as
    the transport does. *)
Lemma load_url_cases self evs url method data :
  let out := load_url env url method data (Store self evs) in
  obj (snd out) = self /\
  ((fst out = inl (SystemExit 0) /\
    transmitted (log (snd out)) = transmitted evs /\
    ~ can_sign env self) \/
   (exists r,
      fst (build_request env url method data (Store self evs)) = inr r /\
      transmitted (log (snd out)) = (transmitted evs ++ [r])%list /\
      fst out = transport_outcome env r)).
Proof.
  cbv zeta. rewrite load_url_run. cbv zeta.
  set (evs1 := if BitBucket.verbose self then _ else evs).
  assert (Ht1 : transmitted evs1 = transmitted evs).
  { subst evs1. destruct (BitBucket.verbose self); [|reflexivity].
    unfold transmitted. rewrite omap_app. apply app_nil_r. }
  pose proof (build_request_frame env self evs1 url method data) as Hf.
  pose proof (build_request_log_irrelevant self evs evs1 url method data) as Hi.
  cbv zeta in Hf.
  destruct (build_request env url method data (Store self evs1))
    as [[e|r] [self1 evs2]] eqn:Hb; cbn [fst snd obj log] in *.
  - destruct Hf as (-> & Ht & He & _ & Hc).
    split; [reflexivity|]. left. rewrite (He e eq_refl).
    repeat split; [congruence|].
    intros H. destruct (Hc H) as [? ?]. discriminate.
  - destruct Hf as (-> & Ht & _ & _ & _).
    unfold transport_outcome.
    destruct (urlopen_read env r) as [e|payload] eqn:Hu; cbn [fst snd obj log];
      (split; [reflexivity|]); right; exists r;
      (split; [assumption|]); (split; [|now rewrite Hu]).
    + unfold transmitted in *. rewrite omap_app. simpl. congruence.
    + unfold transmitted in *.
      destruct (BitBucket.verbose self); rewrite !omap_app; simpl;
        rewrite ?app_nil_r; congruence.
Qed.

End LoadUrl.

(** ** The methods of User *)

Section UserMethods.
Context (env : Env).
Implicit Types (self : User.t) (evs : list event) (url : string).

(** The common tail of [get] and [get_repos]. *)
Lemma user_fetch_run self evs url :
  (payload ← via_bb (load_url env url "GET" None);
   text ← decode env payload;
   loads env text) (Store self evs) =
  let out := load_url env url "GET" None (Store (User.bb self) evs) in
  (match fst out with
   | inl e => inl e
   | inr payload =>
       match decode_utf_8 env payload with
       | None => inl UnicodeDecodeError
       | Some text =>
           match json_loads env text with
           | None => inl JSONDecodeError
           | Some j => inr j
           end
       end
   end,
   Store (User.mk (obj (snd out)) (User.username self)) (log (snd out))).
Proof.
  unfold via_bb, decode, loads. run_monad. cbn [obj log fst snd].
  destruct (load_url env url "GET" None _) as [[e|payload] s1];
    cbn [fst snd]; [reflexivity|].
  destruct (decode_utf_8 env payload) as [text|]; [|reflexivity].
  destruct (json_loads env text); reflexivity.
Qed.

Lemma user_fetch_cases self evs url :
  let out :=
    (payload ← via_bb (load_url env url "GET" None);
     text ← decode env payload;
     loads env text) (Store self evs) in
  obj (snd out) = self /\
  ((fst out = inl (SystemExit 0) /\
    transmitted (log (snd out)) = transmitted evs /\
    ~ can_sign env (User.bb self)) \/
   (exists r,
      full_url r = url /\ get_method r = "GET" /\
      transmitted (log (snd out)) = (transmitted evs ++ [r])%list /\
      fst out = decoded_response env r)).
Proof.
  cbv zeta. rewrite user_fetch_run. cbv zeta. cbn [fst snd obj log].
  destruct (load_url_cases env (User.bb self) evs url "GET" None)
    as [Hobj [(He & Ht & Hc) | (r & Hr & Ht & Hout)]].
  - rewrite Hobj, He. split; [now destruct self|]. left. now repeat split.
  - rewrite Hobj, Hout. split; [now destruct self|]. right. exists r.
    destruct (build_request env url "GET" None (Store (User.bb self) evs))
      as [o s1] eqn:Hb. cbn [fst] in Hr. subst o.
    pose proof (build_request_frame env (User.bb self) evs url "GET" None) as Hf.
    cbv zeta in Hf. rewrite Hb in Hf. cbn [fst snd] in Hf.
    destruct Hf as (_ & _ & _ & Hurl & _).
    split; [now apply Hurl|]. split; [now apply (build_request_get _ _ _ _ _ _ Hb)|].
    split; [assumption|].
    unfold transport_outcome, decoded_response.
    destruct (urlopen_read env r); reflexivity.
Qed.

End UserMethods.

(** * The contract of the wrapper *)

(** C1.  The authentication guard.  For every client, [emails] and
    [create_repo] called with an empty username or an empty password --
    whatever the OAuth fields -- raise [AuthenticationRequired] with a
    message that names the operation and leave the store, hence the event
    log, as it was: nothing is printed or transmitted.  With both set the
    guard passes control to the operation's body.  The same holds for any
    method of a [User] handle under the guard, which then reads the
    credentials of the owning client. *)
Theorem authentication_guard (env : Env) :
  (forall (self : BitBucket.t) (evs : list event) (repo_data : list (string * string)),
     let s := Store self evs in
     (BitBucket.username self = "" \/ BitBucket.password self = "" ->
        emails env s =
          (inl (AuthenticationRequired "emails requires authentication"), s) /\
        create_repo env repo_data s =
          (inl (AuthenticationRequired "create_repo requires authentication"), s)) /\
     (basic_set self ->
        emails env s = emails_body env s /\
        create_repo env repo_data s = create_repo_body env repo_data s)) /\
  (forall (A : Type) (name : string) (method : M User.t A)
          (handle : User.t) (evs : list event),
     let s := Store handle evs in
     (BitBucket.username (User.bb handle) = "" \/
      BitBucket.password (User.bb handle) = "" ->
        requires_authentication name method s =
          (inl (AuthenticationRequired (name ++ " requires authentication")), s)) /\
     (basic_set (User.bb handle) ->
        requires_authentication name method s = method s)).
Proof.
  split.
  - intros self evs repo_data s. split.
    + intros H. apply all_pair_false in H.
      unfold emails, create_repo, requires_authentication, auth_source,
        BitBucket_auth.
      run_monad. subst s. cbn [obj]. now rewrite H.
    + intros H. apply all_pair in H.
      unfold emails, create_repo, requires_authentication, auth_source,
        BitBucket_auth.
      run_monad. subst s. cbn [obj]. now rewrite H.
  - intros A name method handle evs s. split.
    + intros H. apply all_pair_false in H.
      unfold requires_authentication, auth_source, User_auth.
      run_monad. subst s. cbn [obj]. now rewrite H.
    + intros H. apply all_pair in H.
      unfold requires_authentication, auth_source, User_auth.
      run_monad. subst s. cbn [obj]. now rewrite H.
Qed.

(** The guard at work on a client that has OAuth credentials only. *)
Lemma authentication_guard_witness :
  emails (stub_env true "[]") (Store oauth_only []) =
    (inl (AuthenticationRequired "emails requires authentication"),
     Store oauth_only []) /\
  emails (stub_env true "[]") (Store alice []) =
    emails_body (stub_env true "[]") (Store alice []).
Proof.
  destruct (authentication_guard (stub_env true "[]")) as [Hc _].
  split.
  - apply (Hc oauth_only [] []). left. reflexivity.
  - apply (Hc alice [] []). split; discriminate.
Defined.






(** C4.  On a handle bound to no username, [get_repos] raises the
    exception with the message ["username missing"] and leaves the store,
    hence the event log, as it was: nothing is transmitted. *)
Theorem get_repos_username_missing (env : Env) (bb : BitBucket.t)
    (evs : list event) :
  get_repos env (Store (User.mk bb None) evs) =
  (inl (Exception "username missing"), Store (User.mk bb None) evs).
Proof. reflexivity. Qed.







(** C8.  No operation writes to the client.  After [build_request],
    [load_url], [user], [emails], [create_repo] or [__repr__] the client in
    the store is the one the call started from, whatever the outcome; the
    handle that [user] returns refers to that client; and after [get],
    [get_repos], [repositories] or [__repr__] on a handle, the handle and
    the client it refers to are as before. *)
Theorem client_fields_unchanged (env : Env) (self : BitBucket.t)
    (evs : list event) (url method : string) (data : option string)
    (username : option string) (repo_data : list (string * string)) :
  let s := Store self evs in
  obj (snd (build_request env url method data s)) = self /\
  obj (snd (load_url env url method data s)) = self /\
  user username s = (inr (User.mk self username), s) /\
  obj (snd (emails env s)) = self /\
  obj (snd (create_repo env repo_data s)) = self /\
  obj (snd (BitBucket_repr s)) = self /\
  let t := Store (User.mk self username) evs in
  obj (snd (get env t)) = User.mk self username /\
  obj (snd (get_repos env t)) = User.mk self username /\
  obj (snd (repositories env t)) = User.mk self username /\
  obj (snd (User_repr t)) = User.mk self username.
Proof.
  assert (Hbody : forall u m d,
            obj (snd ((payload ← load_url env u m d; loads env payload)
                        (Store self evs))) = self).
  { intros u m d. rewrite bind_run.
    pose proof (load_url_cases env self evs u m d) as [Hobj _].
    destruct (load_url env u m d (Store self evs)) as [[e|payload] s1];
      cbn [fst snd] in *; [assumption|].
    unfold loads. destruct (json_loads env payload); assumption. }
  assert (Hguard : forall name (m : M BitBucket.t JSON),
            obj (snd (m (Store self evs))) = self ->
            obj (snd (requires_authentication name m (Store self evs))) = self).
  { intros name m Hm. unfold requires_authentication. run_monad. cbn [obj].
    destruct (negb _); [reflexivity | exact Hm]. }
  assert (Hfetch : forall u,
            obj (snd ((payload ← via_bb (load_url env u "GET" None);
                       text ← decode env payload;
                       loads env text) (Store (User.mk self username) evs)))
            = User.mk self username).
  { intros u. apply user_fetch_cases. }
  assert (Hrepos : obj (snd (get_repos env (Store (User.mk self username) evs)))
                   = User.mk self username).
  { unfold get_repos. rewrite bind_run. unfold get_self at 1.
    cbn [obj User.username]. destruct username; [apply Hfetch | reflexivity]. }
  cbv zeta. repeat split.
  - apply build_request_frame.
  - apply load_url_cases.
  - apply Hguard, Hbody.
  - apply Hguard, Hbody.
  - unfold get. rewrite bind_run. unfold get_self at 1. apply Hfetch.
  - exact Hrepos.
  - unfold repositories. rewrite bind_run.
    destruct (get_repos env _) as [[e|j] s1]; cbn [fst snd] in *; [assumption|].
    unfold subscript. destruct j; try assumption.
    destruct (assoc_get _ _); assumption.
Qed.

(** C9.  The representation of a client shows the username, and only when
    username and password are both non-empty; it never depends on what the
    password is: clients that differ only in their non-empty passwords have
    the same representation. *)
Theorem repr_hides_password (self : BitBucket.t) (evs : list event) :
  let s := Store self evs in
  (basic_set self ->
     BitBucket_repr s =
       (inr ("<BitBucket API (auth: " ++ BitBucket.username self ++ ")>"), s)) /\
  (~ basic_set self -> BitBucket_repr s = (inr "<BitBucket API>", s)) /\
  (forall password',
     BitBucket.password self <> "" -> password' <> "" ->
     fst (BitBucket_repr (Store (with_basic (BitBucket.username self) password' self) evs)) =
     fst (BitBucket_repr s)).
Proof.
  cbv zeta. unfold BitBucket_repr. run_monad. cbn [obj].
  split; [|split].
  - intros H. rewrite (basic_set_all _ H). simpl.
    now rewrite string_app_assoc.
  - intros H. now rewrite (basic_unset_all _ H).
  - intros p' Hp Hp'. cbn [with_basic BitBucket.username BitBucket.password fst].
    destruct (BitBucket.username self) as [|c u] eqn:Hu; [reflexivity|].
    assert (E1 : all_ [String c u; p'] = true) by now apply all_pair.
    assert (E2 : all_ [String c u; BitBucket.password self] = true)
      by now apply all_pair.
    now rewrite E1, E2.
Qed.

Lemma repr_hides_password_witness :
  BitBucket_repr (Store alice []) =
    (inr "<BitBucket API (auth: alice)>", Store alice []) /\
  BitBucket_repr (Store oauth_only []) =
    (inr "<BitBucket API>", Store oauth_only []) /\
  fst (BitBucket_repr (Store (with_basic "alice" "hunter2" alice) [])) =
  fst (BitBucket_repr (Store alice [])).
Proof.
  split; [|split].
  - apply (repr_hides_password alice []). split; discriminate.
  - apply (repr_hides_password oauth_only []). intros [H _]. now apply H.
  - destruct (repr_hides_password alice []) as (_ & _ & H).
    apply (H "hunter2"); discriminate.
Defined.

(** ** to_datetime *)

Local Open Scope Z_scope.
#[local] Arguments digit_char : simpl never.

Lemma Z_cases_upto (hi : nat) (P : Z -> Prop) :
  (forall k : nat, (k <= hi)%nat -> P (Z.of_nat k)) ->
  forall n, 0 <= n <= Z.of_nat hi -> P n.
Proof. intros HP n Hn. rewrite <- (Z2Nat.id n) by lia. apply HP. lia. Qed.

(** A goal [lo <= n <= hi -> ...] about an integer [n], by cases on [n];
    [bound] is one more than [hi]. *)
Tactic Notation "by_enumeration" constr(n) constr(hi) integer(bound) :=
  match goal with
  | H : _ <= n <= _ |- _ =>
      let Hr := fresh in
      let k := fresh "k" in
      let Hk := fresh in
      assert (Hr : 0 <= n <= Z.of_nat hi) by lia;
      revert H; pattern n; apply (Z_cases_upto hi); [|exact Hr];
      clear; intros k Hk;
      do bound (destruct k as [|k];
                [first [reflexivity | intros; first [reflexivity | lia]]|]);
      lia
  end.

Lemma digit_char_spec (d : Z) :
  0 <= d <= 9 ->
  is_digit (digit_char d) = true /\
  is_space (digit_char d) = false /\
  Ascii.eqb (digit_char d) "+" = false /\
  Z.of_nat (nat_of_ascii (digit_char d)) - 48 = d.
Proof.
  revert d. apply (Z_cases_upto 9). intros k Hk.
  do 10 (destruct k as [|k]; [now repeat split|]). lia.
Qed.

Lemma hd_error_re_bind {A B} (p : re A) (k : A -> re B) s a s' r :
  hd_error (p s) = Some (a, s') ->
  hd_error (k a s') = Some r ->
  hd_error (re_bind p k s) = Some r.
Proof.
  unfold re_bind. destruct (p s) as [|[a0 s0] l]; [discriminate|].
  intros [= -> ->]. cbn [flat_map fst snd].
  destruct (k a s'); [discriminate|]. now intros [= ->].
Qed.

Lemma re_d_digit (d : Z) (rest : string) :
  0 <= d <= 9 -> re_d (String (digit_char d) rest) = [(d, rest)].
Proof.
  intros H. destruct (digit_char_spec d H) as (_ & _ & _ & Hv).
  unfold re_d, re_range. cbv zeta. rewrite Hv.
  destruct H. now rewrite (proj2 (Z.leb_le 0 d)), (proj2 (Z.leb_le d 9)).
Qed.

Lemma pad4_digits (Y : Z) :
  0 <= Y <= 9999 ->
  exists a b c d,
    (0 <= a <= 9 /\ 0 <= b <= 9 /\ 0 <= c <= 9 /\ 0 <= d <= 9) /\
    1000 * a + 100 * b + 10 * c + d = Y /\
    pad4 Y = String (digit_char a) (String (digit_char b)
               (String (digit_char c) (String (digit_char d) EmptyString))).
Proof.
  intros H.
  exists (Y / 1000), (Y / 100 mod 10), (Y mod 100 / 10), (Y mod 100 mod 10).
  split; [|split]; [| |reflexivity]; Z.div_mod_to_equations; lia.
Qed.

Lemma re_Y_pad4 (Y : Z) (rest : string) :
  0 <= Y <= 9999 ->
  hd_error (re_Y (pad4 Y ++ rest)%string) = Some (Y, rest).
Proof.
  intros H. destruct (pad4_digits Y H) as (a & b & c & d & (Ha & Hb & Hc & Hd) & <- & ->).
  cbn [String.append]. unfold re_Y.
  eapply hd_error_re_bind; [rewrite re_d_digit by assumption; reflexivity|].
  eapply hd_error_re_bind; [rewrite re_d_digit by assumption; reflexivity|].
  eapply hd_error_re_bind; [rewrite re_d_digit by assumption; reflexivity|].
  eapply hd_error_re_bind; [rewrite re_d_digit by assumption; reflexivity|].
  reflexivity.
Qed.

Lemma re_m_pad2 (n : Z) (rest : string) :
  1 <= n <= 12 -> hd_error (re_m (pad2 n ++ rest)%string) = Some (n, rest).
Proof.
  intros H. revert rest. by_enumeration n 12%nat 13.
Qed.

Lemma re_day_pad2 (n : Z) (rest : string) :
  1 <= n <= 31 -> hd_error (re_day (pad2 n ++ rest)%string) = Some (n, rest).
Proof.
  intros H. revert rest. by_enumeration n 31%nat 32.
Qed.

Lemma re_H_pad2 (n : Z) (rest : string) :
  0 <= n <= 23 -> hd_error (re_H (pad2 n ++ rest)%string) = Some (n, rest).
Proof.
  intros H. revert rest. by_enumeration n 23%nat 24.
Qed.

Lemma re_M_pad2 (n : Z) (rest : string) :
  0 <= n <= 59 -> hd_error (re_M (pad2 n ++ rest)%string) = Some (n, rest).
Proof.
  intros H. revert rest. by_enumeration n 59%nat 60.
Qed.

Lemma re_S_pad2 (n : Z) (rest : string) :
  0 <= n <= 59 -> hd_error (re_S (pad2 n ++ rest)%string) = Some (n, rest).
Proof.
  intros H. revert rest. by_enumeration n 59%nat 60.
Qed.

Lemma re_spaces_pad2 (n : Z) (rest : string) :
  0 <= n <= 23 ->
  hd_error (re_spaces (" " ++ pad2 n ++ rest)%string) = Some (tt, (pad2 n ++ rest)%string).
Proof.
  intros H. revert rest. by_enumeration n 23%nat 24.
Qed.

Lemma days_in_month_le (Y m : Z) : 1 <= m <= 12 -> days_in_month Y m <= 31.
Proof.
  intros H. unfold days_in_month.
  destruct ((m =? 2) && is_leap Y); [lia|].
  assert (Hr : 0 <= m <= Z.of_nat 12) by lia. clear H.
  revert m Hr. apply (Z_cases_upto 12). intros k Hk.
  do 13 (destruct k as [|k]; [simpl; lia|]). lia.
Qed.

(** The regular expression reads a rendered timestamp back, whole. *)
Lemma re_format_timestamp (Y m d H Mi Sec : Z) :
  0 <= Y <= 9999 -> 1 <= m <= 12 -> 1 <= d <= 31 ->
  0 <= H <= 23 -> 0 <= Mi <= 59 -> 0 <= Sec <= 59 ->
  hd_error (re_format (timestamp Y m d H Mi Sec)) =
  Some (Y, m, d, H, Mi, Sec, EmptyString).
Proof.
  intros HY Hm Hd HH HM HS. unfold re_format, timestamp.
  rewrite <- (string_app_nil_r (pad2 Sec)).
  eapply hd_error_re_bind; [now apply re_Y_pad4|].
  eapply hd_error_re_bind; [reflexivity|].
  eapply hd_error_re_bind; [now apply re_m_pad2|].
  eapply hd_error_re_bind; [reflexivity|].
  eapply hd_error_re_bind; [now apply re_day_pad2|].
  eapply hd_error_re_bind; [now apply re_spaces_pad2|].
  eapply hd_error_re_bind; [now apply re_H_pad2|].
  eapply hd_error_re_bind; [reflexivity|].
  eapply hd_error_re_bind; [now apply re_M_pad2|].
  eapply hd_error_re_bind; [reflexivity|].
  eapply hd_error_re_bind; [now apply re_S_pad2|].
  reflexivity.
Qed.

(** Whitespace around the timestamp and the text after the first [+]. *)

Lemma all_chars_impl (P Q : ascii -> bool) (s : string) :
  (forall c, P c = true -> Q c = true) ->
  all_chars P s = true -> all_chars Q s = true.
Proof.
  intros HPQ. induction s as [|c s IH]; simpl; [easy|].
  rewrite !andb_true_iff. intros [Hc Hs]. auto.
Qed.

Lemma is_space_not_plus (c : ascii) :
  is_space c = true -> negb (Ascii.eqb c "+") = true.
Proof.
  destruct (Ascii.eqb_spec c "+") as [->|]; [discriminate | reflexivity].
Qed.

Lemma split_head_app (sep : ascii) (a b : string) :
  all_chars (fun c => negb (Ascii.eqb c sep)) a = true ->
  split_head sep (a ++ b)%string = (a ++ split_head sep b)%string.
Proof.
  induction a as [|c a IH]; simpl; [reflexivity|].
  rewrite andb_true_iff, negb_true_iff. intros [-> Ha]. now rewrite IH.
Qed.

Lemma lstrip_app_space (a s : string) :
  all_chars is_space a = true -> lstrip (a ++ s)%string = lstrip s.
Proof.
  induction a as [|c a IH]; simpl; [reflexivity|].
  rewrite andb_true_iff. intros [-> Ha]. now apply IH.
Qed.

Lemma rstrip_all_space (t : string) :
  all_chars is_space t = true -> rstrip t = EmptyString.
Proof.
  induction t as [|c t IH]; simpl; [reflexivity|].
  rewrite andb_true_iff. intros [-> Ht]. now rewrite IH.
Qed.

Lemma rstrip_app_space (a t : string) :
  all_chars is_space t = true -> rstrip (a ++ t)%string = rstrip a.
Proof.
  intros Ht. induction a as [|c a IH]; simpl.
  - now apply rstrip_all_space.
  - now rewrite IH.
Qed.

Lemma rstrip_cons_keep (c : ascii) (s : string) :
  rstrip s = s -> s <> EmptyString -> rstrip (String c s) = String c s.
Proof. intros Hs Hne. simpl. rewrite Hs. now destruct s. Qed.

Lemma rstrip_single (c : ascii) :
  is_space c = false -> rstrip (String c EmptyString) = String c EmptyString.
Proof. intros H. simpl. now rewrite H. Qed.

Section Timestamp.
Context (Y m d H Mi Sec : Z).
Hypothesis (HY : 0 <= Y <= 9999) (Hm : 0 <= m <= 99) (Hd : 0 <= d <= 99)
           (HH : 0 <= H <= 99) (HM : 0 <= Mi <= 99) (HS : 0 <= Sec <= 99).

(** The nineteen characters of a timestamp. *)
Lemma timestamp_chars :
  exists y1 y2 y3 y4 m1 m2 d1 d2 h1 h2 i1 i2 s1 s2,
    (0 <= y1 <= 9 /\ 0 <= y2 <= 9 /\ 0 <= y3 <= 9 /\ 0 <= y4 <= 9 /\
     0 <= m1 <= 9 /\ 0 <= m2 <= 9 /\ 0 <= d1 <= 9 /\ 0 <= d2 <= 9 /\
     0 <= h1 <= 9 /\ 0 <= h2 <= 9 /\ 0 <= i1 <= 9 /\ 0 <= i2 <= 9 /\
     0 <= s1 <= 9 /\ 0 <= s2 <= 9) /\
    timestamp Y m d H Mi Sec =
    String (digit_char y1) (String (digit_char y2) (String (digit_char y3)
    (String (digit_char y4) (String "-" (String (digit_char m1)
    (String (digit_char m2) (String "-" (String (digit_char d1)
    (String (digit_char d2) (String " " (String (digit_char h1)
    (String (digit_char h2) (String ":" (String (digit_char i1)
    (String (digit_char i2) (String ":" (String (digit_char s1)
    (String (digit_char s2) EmptyString)))))))))))))))))).
Proof.
  exists (Y / 1000), (Y / 100 mod 10), (Y mod 100 / 10), (Y mod 100 mod 10),
         (m / 10), (m mod 10), (d / 10), (d mod 10), (H / 10), (H mod 10),
         (Mi / 10), (Mi mod 10), (Sec / 10), (Sec mod 10).
  split; [|reflexivity].
  repeat split; Z.div_mod_to_equations; lia.
Qed.

Lemma timestamp_no_plus :
  all_chars (fun c => negb (Ascii.eqb c "+")) (timestamp Y m d H Mi Sec) = true.
Proof.
  destruct timestamp_chars
    as (y1 & y2 & y3 & y4 & m1 & m2 & d1 & d2 & h1 & h2 & i1 & i2 & s1 & s2 &
        (? & ? & ? & ? & ? & ? & ? & ? & ? & ? & ? & ? & ? & ?) & ->).
  cbn [all_chars].
  repeat match goal with
         | Hb : 0 <= ?x <= 9 |- context [Ascii.eqb (digit_char ?x) "+"] =>
             rewrite (proj1 (proj2 (proj2 (digit_char_spec x Hb))))
         end.
  reflexivity.
Qed.

Lemma lstrip_timestamp (t : string) :
  lstrip (timestamp Y m d H Mi Sec ++ t)%string =
  (timestamp Y m d H Mi Sec ++ t)%string.
Proof.
  destruct timestamp_chars
    as (y1 & y2 & y3 & y4 & m1 & m2 & d1 & d2 & h1 & h2 & i1 & i2 & s1 & s2 &
        (Hy1 & _) & ->).
  cbn [String.append]. apply lstrip_not_space.
  apply (digit_char_spec y1 Hy1).
Qed.

Lemma rstrip_timestamp :
  rstrip (timestamp Y m d H Mi Sec) = timestamp Y m d H Mi Sec.
Proof.
  destruct timestamp_chars
    as (y1 & y2 & y3 & y4 & m1 & m2 & d1 & d2 & h1 & h2 & i1 & i2 & s1 & s2 &
        (_ & _ & _ & _ & _ & _ & _ & _ & _ & _ & _ & _ & _ & Hs2) & ->).
  repeat (apply rstrip_cons_keep; [|discriminate]).
  apply rstrip_single. apply (digit_char_spec s2 Hs2).
Qed.

(** Stripping and cutting at the first [+] leave the timestamp. *)
Lemma strip_split_timestamp (lead trail : string) :
  all_chars is_space lead = true -> all_chars is_space trail = true ->
  strip (split_head "+" (lead ++ timestamp Y m d H Mi Sec ++ trail)%string) =
    timestamp Y m d H Mi Sec /\
  forall tz,
    strip (split_head "+"
             (lead ++ timestamp Y m d H Mi Sec ++ trail ++ "+" ++ tz)%string) =
    timestamp Y m d H Mi Sec.
Proof.
  intros Hl Ht.
  assert (Hstrip : strip (lead ++ timestamp Y m d H Mi Sec ++ trail)%string =
                   timestamp Y m d H Mi Sec).
  { unfold strip. rewrite (lstrip_app_space _ _ Hl), lstrip_timestamp.
    rewrite (rstrip_app_space _ _ Ht). apply rstrip_timestamp. }
  pose proof (all_chars_impl _ _ _ is_space_not_plus Hl) as Hl'.
  pose proof (all_chars_impl _ _ _ is_space_not_plus Ht) as Ht'.
  split.
  - rewrite <- (string_app_nil_r trail) at 1.
    rewrite (split_head_app _ _ _ Hl'), (split_head_app _ _ _ timestamp_no_plus),
      (split_head_app _ _ _ Ht').
    cbn [split_head]. rewrite string_app_nil_r. exact Hstrip.
  - intros tz.
    rewrite (split_head_app _ _ _ Hl'), (split_head_app _ _ _ timestamp_no_plus),
      (split_head_app _ _ _ Ht').
    simpl split_head. rewrite string_app_nil_r. exact Hstrip.
Qed.

End Timestamp.

Lemma check_date_fields_ok (Y m d : Z) :
  1 <= Y <= 9999 -> 1 <= m <= 12 -> 1 <= d <= days_in_month Y m ->
  check_date_fields Y m d = None.
Proof.
  intros [? ?] [? ?] [? ?]. unfold check_date_fields.
  now rewrite !(proj2 (Z.leb_le _ _)) by assumption.
Qed.

Lemma check_time_fields_ok (H Mi Sec us : Z) :
  0 <= H <= 23 -> 0 <= Mi <= 59 -> 0 <= Sec <= 59 -> 0 <= us <= 999999 ->
  check_time_fields H Mi Sec us = None.
Proof.
  intros [? ?] [? ?] [? ?] [? ?]. unfold check_time_fields.
  now rewrite !(proj2 (Z.leb_le _ _)) by assumption.
Qed.

Lemma weekday_range (Y m d : Z) : 0 <= weekday Y m d <= 6.
Proof. unfold weekday. Z.div_mod_to_equations. lia. Qed.

Lemma to_datetime_of_timestamp (Y m d H Mi Sec : Z) (text : string) :
  1 <= Y <= 9999 -> 1 <= m <= 12 -> 1 <= d <= days_in_month Y m ->
  0 <= H <= 23 -> 0 <= Mi <= 59 -> 0 <= Sec <= 59 ->
  strip (split_head "+" text) = timestamp Y m d H Mi Sec ->
  to_datetime text = inr (mk_datetime Y m d H Mi Sec (weekday Y m d)).
Proof.
  intros HY Hm Hd HH HM HS Htext.
  pose proof (days_in_month_le Y m Hm) as Hdim.
  unfold to_datetime. cbv zeta. rewrite Htext. unfold strptime.
  pose proof (re_format_timestamp Y m d H Mi Sec) as Hre.
  destruct (re_format (timestamp Y m d H Mi Sec)) as [|r l].
  - discriminate Hre; lia.
  - cbn [hd_error] in Hre. rewrite (Some_inj _ _ (Hre ltac:(lia) Hm ltac:(lia) HH HM HS)).
    rewrite (check_date_fields_ok Y m d HY Hm Hd).
    cbn [firstn]. unfold datetime_datetime. cbn [length nth].
    change (4 <? Z.of_nat 4) with false. cbv iota.
    rewrite (check_date_fields_ok Y m d HY Hm Hd).
    pose proof (weekday_range Y m d) as Hw.
    now rewrite (check_time_fields_ok H Mi Sec (weekday Y m d) HH HM HS) by lia.
Qed.

(** C10.  On a text made of a timestamp [YYYY-MM-DD HH:MM:SS] of a valid
    date and time of day, with any whitespace around it and, optionally, a
    [+] and any text after it, [to_datetime] returns the datetime of the six
    fields read, with the index of the date's weekday (0 for Monday to 6
    for Sunday) as its microsecond. *)
Theorem to_datetime_microsecond_is_weekday (Y m d H Mi Sec : Z)
    (lead trail tz : string) :
  1 <= Y <= 9999 -> 1 <= m <= 12 -> 1 <= d <= days_in_month Y m ->
  0 <= H <= 23 -> 0 <= Mi <= 59 -> 0 <= Sec <= 59 ->
  all_chars is_space lead = true -> all_chars is_space trail = true ->
  let stamp := timestamp Y m d H Mi Sec in
  let parsed := mk_datetime Y m d H Mi Sec (weekday Y m d) in
  to_datetime (lead ++ stamp ++ trail)%string = inr parsed /\
  to_datetime (lead ++ stamp ++ trail ++ "+" ++ tz)%string = inr parsed /\
  0 <= microsecond parsed <= 6.
Proof.
  intros HY Hm Hd HH HM HS Hl Ht stamp parsed.
  pose proof (days_in_month_le Y m Hm) as Hdim.
  destruct (strip_split_timestamp Y m d H Mi Sec ltac:(lia) ltac:(lia) ltac:(lia)
              ltac:(lia) ltac:(lia) ltac:(lia) lead trail Hl Ht) as [H1 H2].
  split; [|split].
  - now apply to_datetime_of_timestamp.
  - now apply to_datetime_of_timestamp.
  - apply weekday_range.
Qed.

Lemma to_datetime_microsecond_is_weekday_witness :
  to_datetime "2011-12-20 16:35:06" =
    inr (mk_datetime 2011 12 20 16 35 6 1) /\
  to_datetime "2011-12-20 16:35:06+00:00" =
    inr (mk_datetime 2011 12 20 16 35 6 1).
Proof.
  assert (Hd : 1 <= 20 <= days_in_month 2011 12)
    by (vm_compute; split; discriminate).
  destruct (to_datetime_microsecond_is_weekday 2011 12 20 16 35 6 "" "" "00:00"
              ltac:(lia) ltac:(lia) Hd ltac:(lia) ltac:(lia) ltac:(lia)
              eq_refl eq_refl) as (H1 & H2 & _).
  split; [exact H1 | exact H2].
Defined.

(** ** The operations at work *)

Example b64encode_examples :
  b64encode "alice:s3cret" = "YWxpY2U6czNjcmV0"%string /\
  b64encode "a:b" = "YTpi"%string /\
  b64encode "ab:c" = "YWI6Yw=="%string.
Proof. repeat split. Qed.

(** 1 January 2024 was a Monday, 7 January 2024 a Sunday. *)
Example weekday_examples : weekday 2024 1 1 = 0 /\ weekday 2024 1 7 = 6.
Proof. split; reflexivity. Qed.

(** A day that the month does not have, a leap second and a two-digit
    year are refused. *)
Example to_datetime_refusals :
  to_datetime "2024-02-30 00:00:00" =
    inl (ValueError "day is out of range for month") /\
  to_datetime "2024-02-03 01:02:60" =
    inl (ValueError "second must be in 0..59") /\
  to_datetime "24-02-03 01:02:03" =
    inl (ValueError "time data does not match format").
Proof. repeat split. Qed.

(** Decoding is transparent: [emails] returns the value of the payload. *)
Example emails_decodes_payload :
  fst (run (emails (stub_env true (requote "{'a': 1}"))) alice) =
  inr (JObject [("a", JInt 1)]).
Proof. vm_compute. reflexivity. Qed.

(** A transport failure surfaces unchanged, after the one transmission. *)
Example emails_offline :
  fst (run (emails offline_env) alice) = inl (URLError "unreachable") /\
  length (transmitted (log (snd (run (emails offline_env) alice)))) = 1%nat.
Proof. split; vm_compute; reflexivity. Qed.

(** [create_repo] posts the url-encoded form. *)
Example create_repo_request :
  exists r,
    transmitted (log (snd (run (create_repo (stub_env true "{}")
                                  [("name", "my repo"); ("scm", "git")])
                               alice))) = [r] /\
    full_url r = "https://api.bitbucket.org/2.0/repositories/"%string /\
    get_method r = "POST"%string /\
    data r = Some "name=my+repo&scm=git"%string.
Proof. eexists. repeat split. Qed.


(** * Further properties of the module *)

Local Close Scope Z_scope.

(** ** build_request and load_url *)

Section Requests.
Context (env : Env).
Implicit Types (self : BitBucket.t) (evs : list event) (url method : string).

(** A request that is built is built whatever the event log, and the store
    is left as it was. *)
Lemma build_request_ok self evs evs' url method data r :
  fst (build_request env url method data (Store self evs)) = inr r ->
  build_request env url method data (Store self evs') = (inr r, Store self evs').
Proof.
  destruct (all_ [BitBucket.oauth_key self; BitBucket.oauth_secret self]) eqn:Ho.
  - destruct (oauthlib env) as [sign|] eqn:Hs.
    + rewrite !(build_request_oauth env _ _ _ _ _ sign Ho Hs). now intros [= <-].
    + rewrite (build_request_no_oauthlib env _ _ _ _ _ Ho Hs). discriminate.
  - destruct (all_ [BitBucket.username self; BitBucket.password self]) eqn:Hb.
    + rewrite !(build_request_basic env _ _ _ _ _ Ho Hb). now intros [= <-].
    + rewrite !(build_request_anonymous env _ _ _ _ _ Ho Hb). now intros [= <-].
Qed.

(** [build_request] fails only for want of oauthlib, and then whatever the
    event log. *)
Lemma build_request_exit self evs evs' url method data e :
  fst (build_request env url method data (Store self evs)) = inl e ->
  e = SystemExit 0 /\ ~ can_sign env self /\
  build_request env url method data (Store self evs') =
    (inl (SystemExit 0), Store self (evs' ++ [oauthlib_hint])).
Proof.
  destruct (all_ [BitBucket.oauth_key self; BitBucket.oauth_secret self]) eqn:Ho.
  - destruct (oauthlib env) as [sign|] eqn:Hs.
    + rewrite (build_request_oauth env _ _ _ _ _ sign Ho Hs). discriminate.
    + rewrite !(build_request_no_oauthlib env _ _ _ _ _ Ho Hs).
      intros [= <-]. repeat split.
      intros Hc. destruct (Hc Ho) as [? ?]. congruence.
  - destruct (all_ [BitBucket.username self; BitBucket.password self]) eqn:Hb.
    + rewrite (build_request_basic env _ _ _ _ _ Ho Hb). discriminate.
    + rewrite (build_request_anonymous env _ _ _ _ _ Ho Hb). discriminate.
Qed.

Lemma can_sign_builds self evs url method data :
  can_sign env self ->
  exists r, fst (build_request env url method data (Store self evs)) = inr r.
Proof. intros Hc. now apply build_request_frame. Qed.

(** The body and the method of a request built for a client that has
    credentials of either kind. *)
Lemma build_request_body self evs url method body r :
  oauth_set self \/ basic_set self ->
  fst (build_request env url method body (Store self evs)) = inr r ->
  full_url r = url /\ data r = body /\
  (get_method r = method \/
   get_method r = match body with Some _ => "POST" | None => "GET" end).
Proof.
  intros Hcred.
  destruct (all_ [BitBucket.oauth_key self; BitBucket.oauth_secret self]) eqn:Ho.
  - destruct (oauthlib env) as [sign|] eqn:Hs.
    + rewrite (build_request_oauth env _ _ _ _ _ sign Ho Hs).
      intros [= <-]. repeat split. now right.
    + rewrite (build_request_no_oauthlib env _ _ _ _ _ Ho Hs). discriminate.
  - destruct (all_ [BitBucket.username self; BitBucket.password self]) eqn:Hb.
    + rewrite (build_request_basic env _ _ _ _ _ Ho Hb).
      intros [= <-]. repeat split. now left.
    + destruct Hcred as [H|H].
      * apply oauth_set_all in H. congruence.
      * apply basic_set_all in H. congruence.
Qed.

(** The result of [load_url] and what it transmits, from what
    [build_request] answers. *)
Lemma load_url_outcome self evs url method data :
  let built := fst (build_request env url method data (Store self evs)) in
  let out := load_url env url method data (Store self evs) in
  fst out = match built with
            | inl e => inl e
            | inr r => transport_outcome env r
            end /\
  transmitted (log (snd out)) =
    (transmitted evs ++ match built with inl _ => [] | inr r => [r] end)%list.
Proof.
  cbv zeta.
  destruct (load_url_cases env self evs url method data)
    as [_ [(He & Ht & Hc) | (r & Hr & Ht & Hout)]].
  - destruct (fst (build_request env url method data (Store self evs)))
      as [e|r] eqn:Hb.
    + destruct (build_request_exit _ _ evs _ _ _ _ Hb) as (-> & _ & _).
      split; [assumption|]. now rewrite app_nil_r.
    + exfalso. apply Hc. intros Ho.
      destruct (oauthlib env) eqn:Hs; [eauto|].
      rewrite (surjective_pairing (build_request env url method data _)) in Hb.
      pose proof (build_request_no_oauthlib env self evs url method data Ho Hs) as E.
      rewrite E in Hb. discriminate.
  - rewrite Hr. now split.
Qed.

End Requests.

(** X1.  What [load_url] writes to the event log once the request [r] is
    built: with [verbose] off, the transmission alone; with [verbose] on,
    the line with the URL before it and, only when the transport answers,
    the line with the payload after it. *)
Theorem load_url_log (env : Env) (self : BitBucket.t) (evs : list event)
    (url method : string) (data : option string) (r : Request) :
  fst (build_request env url method data (Store self evs)) = inr r ->
  let out := load_url env url method data (Store self evs) in
  (BitBucket.verbose self = false ->
     log (snd out) = (evs ++ [UrlOpen r])%list) /\
  (BitBucket.verbose self = true ->
     forall payload, urlopen_read env r = inr payload ->
       log (snd out) =
         (evs ++ [sending url; UrlOpen r; response_data payload])%list) /\
  (BitBucket.verbose self = true ->
     forall e, urlopen_read env r = inl e ->
       log (snd out) = (evs ++ [sending url; UrlOpen r])%list).
Proof.
  intros Hb. cbv zeta. rewrite load_url_run. cbv zeta.
  unfold sending, response_data.
  split; [|split].
  - intros Hv. rewrite Hv. rewrite (build_request_ok env _ evs _ _ _ _ _ Hb).
    cbn [obj log]. rewrite Hv. now destruct (urlopen_read env r).
  - intros Hv payload Hp. rewrite Hv.
    rewrite (build_request_ok env _ evs _ _ _ _ _ Hb).
    cbn [obj log]. rewrite Hv, Hp. cbn [snd log].
    now rewrite <- !app_assoc.
  - intros Hv e He. rewrite Hv.
    rewrite (build_request_ok env _ evs _ _ _ _ _ Hb).
    cbn [obj log]. rewrite He. cbn [snd log].
    now rewrite <- !app_assoc.
Qed.

Lemma load_url_log_witness :
  log (snd (run (load_url (stub_env true "[]") "https://example.org/" "GET" None)
                (with_verbose true alice))) =
  [sending "https://example.org/";
   UrlOpen (set_get_method "GET"
              (Request_init "https://example.org/" None
                 [("Authorization", "Basic YWxpY2U6czNjcmV0")]));
   response_data "[]"].
Proof.
  destruct (load_url_log (stub_env true "[]") (with_verbose true alice) []
              "https://example.org/" "GET" None
              (set_get_method "GET"
                 (Request_init "https://example.org/" None
                    [("Authorization", "Basic YWxpY2U6czNjcmV0")])) eq_refl)
    as (_ & H & _).
  exact (H eq_refl "[]" eq_refl).
Defined.

Lemma build_request_verbose_irrelevant (env : Env) (self : BitBucket.t)
    (evs : list event) (url method : string) (data : option string) (b : bool) :
  fst (build_request env url method data (Store (with_verbose b self) evs)) =
  fst (build_request env url method data (Store self evs)).
Proof.
  destruct (all_ [BitBucket.oauth_key self; BitBucket.oauth_secret self]) eqn:Ho.
  - assert (Ho' : all_ [BitBucket.oauth_key (with_verbose b self);
                        BitBucket.oauth_secret (with_verbose b self)] = true)
      by exact Ho.
    destruct (oauthlib env) as [sign|] eqn:Hs.
    + now rewrite (build_request_oauth env _ _ _ _ _ sign Ho Hs),
        (build_request_oauth env _ _ _ _ _ sign Ho' Hs).
    + now rewrite (build_request_no_oauthlib env _ _ _ _ _ Ho Hs),
        (build_request_no_oauthlib env _ _ _ _ _ Ho' Hs).
  - assert (Ho' : all_ [BitBucket.oauth_key (with_verbose b self);
                        BitBucket.oauth_secret (with_verbose b self)] = false)
      by exact Ho.
    destruct (all_ [BitBucket.username self; BitBucket.password self]) eqn:Hb.
    + assert (Hb' : all_ [BitBucket.username (with_verbose b self);
                          BitBucket.password (with_verbose b self)] = true)
        by exact Hb.
      now rewrite (build_request_basic env _ _ _ _ _ Ho Hb),
        (build_request_basic env _ _ _ _ _ Ho' Hb').
    + assert (Hb' : all_ [BitBucket.username (with_verbose b self);
                          BitBucket.password (with_verbose b self)] = false)
        by exact Hb.
      now rewrite (build_request_anonymous env _ _ _ _ _ Ho Hb),
        (build_request_anonymous env _ _ _ _ _ Ho' Hb').
Qed.

(** X2.  The [verbose] flag changes what is printed and nothing else:
    [load_url] ends with the same result and transmits the same requests
    whatever the flag is. *)
Theorem verbose_only_prints (env : Env) (self : BitBucket.t) (evs : list event)
    (url method : string) (data : option string) (b : bool) :
  let out := load_url env url method data (Store self evs) in
  let out' := load_url env url method data (Store (with_verbose b self) evs) in
  fst out' = fst out /\
  transmitted (log (snd out')) = transmitted (log (snd out)).
Proof.
  cbv zeta.
  destruct (load_url_outcome env self evs url method data) as [-> ->].
  destruct (load_url_outcome env (with_verbose b self) evs url method data)
    as [-> ->].
  now rewrite build_request_verbose_irrelevant.
Qed.

(** X3.  With both OAuth fields set and no oauthlib to import, [load_url]
    ends in [sys.exit(0)] -- the status of a success -- after printing the
    hint (and, when [verbose], the URL first); nothing is transmitted.  So
    does [get] on any handle of such a client. *)
Theorem missing_oauthlib_exits (env : Env) (self : BitBucket.t)
    (evs : list event) (url method : string) (data : option string)
    (username : option string) :
  oauth_set self -> oauthlib env = None ->
  load_url env url method data (Store self evs) =
    (inl (SystemExit 0),
     Store self
       (evs ++ (if BitBucket.verbose self then [sending url] else [])
            ++ [oauthlib_hint])%list) /\
  fst (get env (Store (User.mk self username) evs)) = inl (SystemExit 0) /\
  transmitted (log (snd (get env (Store (User.mk self username) evs)))) =
    transmitted evs.
Proof.
  intros Ho Hs. apply oauth_set_all in Ho.
  assert (Hload : forall u m d,
            load_url env u m d (Store self evs) =
            (inl (SystemExit 0),
             Store self
               (evs ++ (if BitBucket.verbose self then [sending u] else [])
                    ++ [oauthlib_hint])%list)).
  { intros u m d. rewrite load_url_run. cbv zeta.
    rewrite (build_request_no_oauthlib env _ _ _ _ _ Ho Hs).
    unfold sending, oauthlib_hint.
    destruct (BitBucket.verbose self); [now rewrite <- app_assoc | reflexivity]. }
  split; [apply Hload|].
  set (url' := match username with
               | Some u => api_base ++ "teams/" ++ u
               | None => api_base ++ "user/"
               end).
  assert (Hget : get env (Store (User.mk self username) evs) =
                 (inl (SystemExit 0),
                  Store (User.mk self username)
                    (evs ++ (if BitBucket.verbose self then [sending url'] else [])
                         ++ [oauthlib_hint])%list)).
  { unfold get. rewrite bind_run. unfold get_self at 1. cbn [obj User.username].
    fold url'. rewrite user_fetch_run. cbv zeta. now rewrite Hload. }
  rewrite Hget. cbn [fst snd log]. split; [reflexivity|].
  unfold transmitted. rewrite !omap_app.
  destruct (BitBucket.verbose self); simpl; now rewrite ?app_nil_r.
Qed.

Lemma missing_oauthlib_exits_witness :
  load_url (stub_env false "[]") "https://example.org/" "GET" None
    (Store oauth_only []) =
  (inl (SystemExit 0), Store oauth_only [oauthlib_hint]).
Proof.
  apply (missing_oauthlib_exits (stub_env false "[]") oauth_only []
           "https://example.org/" "GET" None None).
  - split; discriminate.
  - reflexivity.
Defined.

(** A call that loads a URL and parses the raw payload, made by a client
    that has a username and a password. *)
Lemma authenticated_call (env : Env) (self : BitBucket.t) (evs : list event)
    (url method : string) (body : option string) :
  basic_set self -> can_sign env self ->
  let call :=
    (payload ← load_url env url method body; loads env payload) (Store self evs) in
  exists r,
    full_url r = url /\ data r = body /\
    (get_method r = method \/
     get_method r = match body with Some _ => "POST" | None => "GET" end) /\
    (~ oauth_set self -> get_header "Authorization" r = Some (basic_token self)) /\
    transmitted (log (snd call)) = (transmitted evs ++ [r])%list /\
    fst call = parsed_response env r.
Proof.
  intros Hb Hc. cbv zeta.
  destruct (can_sign_builds env self evs url method body Hc) as [r Hr].
  destruct (build_request_body env self evs url method body r (or_intror Hb) Hr)
    as (Hurl & Hdata & Hm).
  destruct (load_url_outcome env self evs url method body) as [Hout Ht].
  rewrite Hr in Hout, Ht.
  exists r. split; [assumption|]. split; [assumption|]. split; [assumption|].
  split.
  - intros Ho.
    rewrite (build_request_basic env _ _ _ _ _ (oauth_unset_all _ Ho)
               (basic_set_all _ Hb)) in Hr.
    cbn [fst] in Hr. injection Hr as <-.
    unfold get_header, set_get_method, Request_init. cbn [headers foldl fst snd].
    apply lookup_insert_eq.
  - rewrite bind_run.
    destruct (load_url env url method body (Store self evs)) as [[e|payload] s1];
      cbn [fst snd] in *.
    + split; [assumption|]. revert Hout.
      unfold parsed_response, transport_outcome.
      destruct (urlopen_read env r); [now intros [= ->] | discriminate].
    + revert Hout. unfold loads, parsed_response, transport_outcome.
      destruct (urlopen_read env r) as [e|p]; [discriminate|].
      intros [= ->].
      destruct (json_loads env p); unfold ret, raise; now split.
Qed.

(** X4.  [emails], called by a client that has a username and a password
    and can sign, transmits exactly one request: a GET of
    [api_base + 'emails/'] without a body, with the Basic header unless
    both OAuth fields are set.  It returns the raw payload parsed as JSON;
    a failure of the transport or of the parser surfaces unchanged. *)
Theorem emails_outcome (env : Env) (self : BitBucket.t) (evs : list event) :
  basic_set self -> can_sign env self ->
  exists r,
    full_url r = api_base ++ "emails/" /\
    get_method r = "GET" /\ data r = None /\
    (~ oauth_set self -> get_header "Authorization" r = Some (basic_token self)) /\
    transmitted (log (snd (emails env (Store self evs)))) =
      (transmitted evs ++ [r])%list /\
    fst (emails env (Store self evs)) = parsed_response env r.
Proof.
  intros Hb Hc.
  assert (E : emails env (Store self evs) = emails_body env (Store self evs)).
  { unfold emails, requires_authentication, auth_source, BitBucket_auth.
    run_monad. cbn [obj]. now rewrite (basic_set_all _ Hb). }
  rewrite E. unfold emails_body. cbv zeta.
  destruct (authenticated_call env self evs (api_base ++ "emails/") "GET" None Hb Hc)
    as (r & Hurl & Hdata & Hm & Hh & Ht & Hout).
  exists r. repeat split; try assumption. now destruct Hm.
Qed.

Lemma emails_outcome_witness :
  exists r,
    full_url r = "https://api.bitbucket.org/2.0/emails/" /\
    get_method r = "GET" /\ data r = None /\
    (~ oauth_set alice -> get_header "Authorization" r = Some (basic_token alice)) /\
    transmitted (log (snd (emails (stub_env false "[]") (Store alice [])))) = [r] /\
    fst (emails (stub_env false "[]") (Store alice [])) =
      parsed_response (stub_env false "[]") r.
Proof.
  apply (emails_outcome (stub_env false "[]") alice []).
  - split; discriminate.
  - intros H. discriminate H.
Defined.







(** X8.  [repositories] adds nothing to what [get_repos] does but the
    lookup of ['values']: an exception of [get_repos] surfaces unchanged; a
    JSON object without the key gives [KeyError('values')]; any other JSON
    value gives a [TypeError].  In each case the store is the one
    [get_repos] left. *)
Theorem repositories_errors (env : Env) (bb : BitBucket.t)
    (username : option string) (evs : list event) :
  let s := Store (User.mk bb username) evs in
  (forall e, fst (get_repos env s) = inl e ->
     repositories env s = (inl e, snd (get_repos env s))) /\
  (forall members,
     fst (get_repos env s) = inr (JObject members) ->
     assoc_get "values" members = None ->
     repositories env s = (inl (KeyError "values"), snd (get_repos env s))) /\
  (forall j,
     fst (get_repos env s) = inr j ->
     (forall members, j <> JObject members) ->
     repositories env s = (inl TypeError, snd (get_repos env s))).
Proof.
  cbv zeta. unfold repositories. rewrite bind_run.
  destruct (get_repos env _) as [o s1]. cbn [fst snd]. split; [|split].
  - now intros e ->.
  - intros members -> Hv. unfold subscript. now rewrite Hv.
  - intros j -> Hj. destruct j; try reflexivity. now destruct (Hj members).
Qed.

Lemma repositories_errors_witness :
  fst (repositories (stub_env true "{}") (Store (User.mk alice (Some "alice")) []))
    = inl (KeyError "values") /\
  fst (repositories (stub_env true "[]") (Store (User.mk alice (Some "alice")) []))
    = inl TypeError /\
  fst (repositories offline_env (Store (User.mk alice (Some "alice")) []))
    = inl (URLError "unreachable").
Proof.
  split; [|split].
  - destruct (repositories_errors (stub_env true "{}") alice (Some "alice") [])
      as (_ & H & _).
    now rewrite (H [] eq_refl eq_refl).
  - destruct (repositories_errors (stub_env true "[]") alice (Some "alice") [])
      as (_ & _ & H).
    now rewrite (H (JArray []) eq_refl ltac:(discriminate)).
  - destruct (repositories_errors offline_env alice (Some "alice") [])
      as (H & _).
    now rewrite (H (URLError "unreachable") eq_refl).
Defined.



(** ** to_datetime, beyond the well-formed timestamps *)

Local Open Scope Z_scope.

Lemma check_date_fields_None (Y m d : Z) :
  check_date_fields Y m d = None ->
  1 <= Y <= 9999 /\ 1 <= m <= 12 /\ 1 <= d <= days_in_month Y m.
Proof.
  unfold check_date_fields.
  destruct (1 <=? Y) eqn:E1, (Y <=? 9999) eqn:E2; try discriminate.
  destruct (1 <=? m) eqn:E3, (m <=? 12) eqn:E4; try discriminate.
  destruct (1 <=? d) eqn:E5, (d <=? days_in_month Y m) eqn:E6; try discriminate.
  intros _. apply Z.leb_le in E1, E2, E3, E4, E5, E6. lia.
Qed.

Lemma check_time_fields_None (H Mi Sec us : Z) :
  check_time_fields H Mi Sec us = None ->
  0 <= H <= 23 /\ 0 <= Mi <= 59 /\ 0 <= Sec <= 59 /\ 0 <= us <= 999999.
Proof.
  unfold check_time_fields.
  destruct (0 <=? H) eqn:E1, (H <=? 23) eqn:E2; try discriminate.
  destruct (0 <=? Mi) eqn:E3, (Mi <=? 59) eqn:E4; try discriminate.
  destruct (0 <=? Sec) eqn:E5, (Sec <=? 59) eqn:E6; try discriminate.
  destruct (0 <=? us) eqn:E7, (us <=? 999999) eqn:E8; try discriminate.
  intros _. apply Z.leb_le in E1, E2, E3, E4, E5, E6, E7, E8. lia.
Qed.

(** X10.  Whatever the text, a datetime that [to_datetime] returns is a
    valid date and time of day whose microsecond is the index of the
    weekday of its date, hence at most 6: the sub-second field never holds
    a fraction of a second. *)
Theorem to_datetime_result_valid (timestring : string) (dt : datetime) :
  to_datetime timestring = inr dt ->
  1 <= year dt <= 9999 /\ 1 <= month dt <= 12 /\
  1 <= day dt <= days_in_month (year dt) (month dt) /\
  0 <= hour dt <= 23 /\ 0 <= minute dt <= 59 /\ 0 <= second dt <= 59 /\
  microsecond dt = weekday (year dt) (month dt) (day dt) /\
  0 <= microsecond dt <= 6.
Proof.
  unfold to_datetime. cbv zeta.
  destruct (strptime _) as [e|tm] eqn:Hs; [discriminate|].
  unfold strptime in Hs.
  destruct (re_format _) as [|[[[[[[Y m] d] H] Mi] Sec] rest] l]; [discriminate|].
  destruct rest; [|discriminate].
  destruct (check_date_fields Y m d) eqn:Hd; [discriminate|].
  injection Hs as <-. cbn [firstn]. unfold datetime_datetime. cbn [length nth].
  change (4 <? Z.of_nat 4) with false. cbv iota. rewrite Hd.
  destruct (check_time_fields H Mi Sec (weekday Y m d)) eqn:Ht; [discriminate|].
  intros [= <-]. cbn [year month day hour minute second microsecond].
  apply check_date_fields_None in Hd. apply check_time_fields_None in Ht.
  pose proof (weekday_range Y m d). intuition lia.
Qed.

Lemma to_datetime_result_valid_witness :
  microsecond (mk_datetime 2024 2 3 1 2 3 5) = weekday 2024 2 3.
Proof.
  apply (to_datetime_result_valid "2024-2- 3 1:2:3"
           (mk_datetime 2024 2 3 1 2 3 5)).
  reflexivity.
Defined.

Lemma split_head_no_sep (sep : ascii) (a : string) :
  all_chars (fun c => negb (Ascii.eqb c sep)) a = true ->
  split_head sep a = a.
Proof.
  intros Ha. rewrite <- (string_app_nil_r a) at 1.
  rewrite (split_head_app _ _ _ Ha). cbn [split_head]. apply string_app_nil_r.
Qed.

(** X11.  Everything from the first [+] on is ignored, on every text: a
    text without [+] followed by [+] and anything has the outcome, value or
    exception, of the text alone.  In particular the UTC offset after the
    [+] never changes the result. *)
Theorem to_datetime_ignores_after_plus (a b b' : string) :
  no_plus a = true ->
  to_datetime (a ++ "+" ++ b)%string = to_datetime a /\
  to_datetime (a ++ "+" ++ b)%string = to_datetime (a ++ "+" ++ b')%string.
Proof.
  intros Ha. unfold no_plus in Ha.
  assert (E : forall c, to_datetime (a ++ "+" ++ c)%string = to_datetime a).
  { intros c. unfold to_datetime.
    rewrite (split_head_app _ _ _ Ha), (split_head_no_sep _ _ Ha).
    cbn [String.append split_head]. rewrite Ascii.eqb_refl.
    now rewrite string_app_nil_r. }
  split; [apply E|]. now rewrite !E.
Qed.

Lemma to_datetime_ignores_after_plus_witness :
  to_datetime "2011-12-20 16:35:06+00:00" = to_datetime "2011-12-20 16:35:06" /\
  to_datetime "2011-12-20 16:35:06+00:00" = to_datetime "2011-12-20 16:35:06+05:30".
Proof.
  apply (to_datetime_ignores_after_plus "2011-12-20 16:35:06" "00:00" "05:30").
  reflexivity.
Defined.

Lemma re_S_pad2_leap (n : Z) (rest : string) :
  0 <= n <= 61 -> hd_error (re_S (pad2 n ++ rest)%string) = Some (n, rest).
Proof. intros H. revert rest. by_enumeration n 61%nat 62. Qed.

(** The regular expression reads a rendered timestamp and leaves the text
    that follows it. *)
Lemma re_format_timestamp_rest (Y m d H Mi Sec : Z) (rest : string) :
  0 <= Y <= 9999 -> 1 <= m <= 12 -> 1 <= d <= 31 ->
  0 <= H <= 23 -> 0 <= Mi <= 59 -> 0 <= Sec <= 61 ->
  hd_error (re_format (timestamp Y m d H Mi Sec ++ rest)%string) =
  Some (Y, m, d, H, Mi, Sec, rest).
Proof.
  intros HY Hm Hd HH HM HS. unfold re_format, timestamp.
  rewrite !string_app_assoc.
  eapply hd_error_re_bind; [now apply re_Y_pad4|].
  eapply hd_error_re_bind; [reflexivity|].
  eapply hd_error_re_bind; [now apply re_m_pad2|].
  eapply hd_error_re_bind; [reflexivity|].
  eapply hd_error_re_bind; [now apply re_day_pad2|].
  eapply hd_error_re_bind; [now apply re_spaces_pad2|].
  eapply hd_error_re_bind; [now apply re_H_pad2|].
  eapply hd_error_re_bind; [reflexivity|].
  eapply hd_error_re_bind; [now apply re_M_pad2|].
  eapply hd_error_re_bind; [reflexivity|].
  eapply hd_error_re_bind; [now apply re_S_pad2_leap|].
  reflexivity.
Qed.


Lemma to_datetime_strptime (text stamp : string) :
  strip (split_head "+" text) = stamp ->
  to_datetime text =
  match strptime stamp with
  | inl e => inl e
  | inr tm => datetime_datetime (firstn 7 tm)
  end.
Proof. intros <-. reflexivity. Qed.

(** [strptime] on a rendered timestamp: the date is validated, the time of
    day is not. *)
Lemma strptime_timestamp (Y m d H Mi Sec : Z) :
  0 <= Y <= 9999 -> 1 <= m <= 12 -> 1 <= d <= 31 ->
  0 <= H <= 23 -> 0 <= Mi <= 59 -> 0 <= Sec <= 61 ->
  strptime (timestamp Y m d H Mi Sec) =
  match check_date_fields Y m d with
  | Some e => inl e
  | None =>
      inr [Y; m; d; H; Mi; Sec; weekday Y m d;
           ymd2ord Y m d - ymd2ord Y 1 1 + 1; -1]
  end.
Proof.
  intros HY Hm Hd HH HM HS. unfold strptime.
  pose proof (re_format_timestamp_rest Y m d H Mi Sec "" HY Hm Hd HH HM HS) as Hre.
  rewrite string_app_nil_r in Hre.
  destruct (re_format (timestamp Y m d H Mi Sec)) as [|r l]; [discriminate|].
  cbn [hd_error] in Hre. injection Hre as ->. reflexivity.
Qed.

Lemma strip_split_bare (Y m d H Mi Sec : Z) :
  0 <= Y <= 9999 -> 0 <= m <= 99 -> 0 <= d <= 99 ->
  0 <= H <= 99 -> 0 <= Mi <= 99 -> 0 <= Sec <= 99 ->
  strip (split_head "+" (timestamp Y m d H Mi Sec)) = timestamp Y m d H Mi Sec.
Proof.
  intros HY Hm Hd HH HM HS.
  destruct (strip_split_timestamp Y m d H Mi Sec HY Hm Hd HH HM HS "" ""
              eq_refl eq_refl) as [E _].
  cbn [String.append] in E. now rewrite string_app_nil_r in E.
Qed.



(** X13.  A day that the month of that year does not have is refused with
    the [ValueError] of the date, whatever the time of day, the whitespace
    around and the text after a [+] are. *)
Theorem to_datetime_refuses_day_out_of_month (Y m d H Mi Sec : Z)
    (lead trail tz : string) :
  1 <= Y <= 9999 -> 1 <= m <= 12 -> days_in_month Y m < d <= 31 ->
  0 <= H <= 23 -> 0 <= Mi <= 59 -> 0 <= Sec <= 61 ->
  all_chars is_space lead = true -> all_chars is_space trail = true ->
  to_datetime (lead ++ timestamp Y m d H Mi Sec ++ trail)%string =
    inl (ValueError "day is out of range for month") /\
  to_datetime (lead ++ timestamp Y m d H Mi Sec ++ trail ++ "+" ++ tz)%string =
    inl (ValueError "day is out of range for month").
Proof.
  intros HY Hm Hd HH HM HS Hl Ht.
  assert (Hdim : 28 <= days_in_month Y m).
  { unfold days_in_month. destruct ((m =? 2) && is_leap Y); [lia|].
    assert (Hr : 0 <= m <= Z.of_nat 12) by lia.
    destruct Hm as [Hlo _]. clear - Hlo Hr. revert m Hr Hlo.
    apply (Z_cases_upto 12 (fun m => 1 <= m -> 28 <= nth (Z.to_nat m) DAYS_IN_MONTH 0)).
    intros k Hk. do 13 (destruct k as [|k]; [simpl; lia|]). lia. }
  assert (Hchk : check_date_fields Y m d =
                 Some (ValueError "day is out of range for month")).
  { unfold check_date_fields.
    rewrite !(proj2 (Z.leb_le _ _)) by lia. cbn [andb negb].
    now rewrite (proj2 (Z.leb_gt _ _)) by lia. }
  destruct (strip_split_timestamp Y m d H Mi Sec ltac:(lia) ltac:(lia) ltac:(lia)
              ltac:(lia) ltac:(lia) ltac:(lia) lead trail Hl Ht) as [E1 E2].
  split.
  - rewrite (to_datetime_strptime _ _ E1), strptime_timestamp by lia.
    now rewrite Hchk.
  - rewrite (to_datetime_strptime _ _ (E2 tz)), strptime_timestamp by lia.
    now rewrite Hchk.
Qed.

Lemma to_datetime_refuses_day_out_of_month_witness :
  to_datetime "2023-02-29 10:00:00" =
    inl (ValueError "day is out of range for month") /\
  to_datetime "2023-02-29 10:00:00+00:00" =
    inl (ValueError "day is out of range for month").
Proof.
  assert (Hd : days_in_month 2023 2 < 29 <= 31) by (vm_compute; split; congruence).
  apply (to_datetime_refuses_day_out_of_month 2023 2 29 10 0 0 "" "" "00:00"
           ltac:(lia) ltac:(lia) Hd ltac:(lia) ltac:(lia) ltac:(lia)
           eq_refl eq_refl).
Defined.

(** X14.  A leap second is read by [strptime] and refused by
    [datetime]: a timestamp of a valid date whose seconds are 60 or 61
    raises the [ValueError] of the seconds. *)
Theorem to_datetime_refuses_leap_second (Y m d H Mi Sec : Z)
    (lead trail tz : string) :
  1 <= Y <= 9999 -> 1 <= m <= 12 -> 1 <= d <= days_in_month Y m ->
  0 <= H <= 23 -> 0 <= Mi <= 59 -> 60 <= Sec <= 61 ->
  all_chars is_space lead = true -> all_chars is_space trail = true ->
  to_datetime (lead ++ timestamp Y m d H Mi Sec ++ trail)%string =
    inl (ValueError "second must be in 0..59") /\
  to_datetime (lead ++ timestamp Y m d H Mi Sec ++ trail ++ "+" ++ tz)%string =
    inl (ValueError "second must be in 0..59").
Proof.
  intros HY Hm Hd HH HM HS Hl Ht.
  pose proof (days_in_month_le Y m Hm) as Hdim.
  assert (Hdt : datetime_datetime
                  (firstn 7 [Y; m; d; H; Mi; Sec; weekday Y m d;
                             ymd2ord Y m d - ymd2ord Y 1 1 + 1; -1]) =
                inl (ValueError "second must be in 0..59")).
  { cbn [firstn]. unfold datetime_datetime. cbn [length nth].
    change (4 <? Z.of_nat 4) with false. cbv iota.
    rewrite (check_date_fields_ok Y m d HY Hm Hd).
    unfold check_time_fields.
    rewrite !(proj2 (Z.leb_le 0 _)), (proj2 (Z.leb_le H 23)),
      (proj2 (Z.leb_le Mi 59)) by lia.
    cbn [andb negb]. now rewrite (proj2 (Z.leb_gt Sec 59)) by lia. }
  destruct (strip_split_timestamp Y m d H Mi Sec ltac:(lia) ltac:(lia) ltac:(lia)
              ltac:(lia) ltac:(lia) ltac:(lia) lead trail Hl Ht) as [E1 E2].
  split.
  - rewrite (to_datetime_strptime _ _ E1), strptime_timestamp by lia.
    now rewrite (check_date_fields_ok Y m d HY Hm Hd).
  - rewrite (to_datetime_strptime _ _ (E2 tz)), strptime_timestamp by lia.
    now rewrite (check_date_fields_ok Y m d HY Hm Hd).
Qed.

Lemma to_datetime_refuses_leap_second_witness :
  to_datetime "2016-12-31 23:59:60" =
    inl (ValueError "second must be in 0..59") /\
  to_datetime "2016-12-31 23:59:60+00:00" =
    inl (ValueError "second must be in 0..59").
Proof.
  assert (Hd : 1 <= 31 <= days_in_month 2016 12) by (vm_compute; split; congruence).
  apply (to_datetime_refuses_leap_second 2016 12 31 23 59 60 "" "" "00:00"
           ltac:(lia) ltac:(lia) Hd ltac:(lia) ltac:(lia) ltac:(lia)
           eq_refl eq_refl).
Defined.

(** X15.  29 February is accepted in the leap years of the Gregorian
    calendar and in no other year. *)
Theorem to_datetime_february_29 (Y H Mi Sec : Z) :
  1 <= Y <= 9999 -> 0 <= H <= 23 -> 0 <= Mi <= 59 -> 0 <= Sec <= 59 ->
  (is_leap Y = true ->
     to_datetime (timestamp Y 2 29 H Mi Sec) =
       inr (mk_datetime Y 2 29 H Mi Sec (weekday Y 2 29))) /\
  (is_leap Y = false ->
     to_datetime (timestamp Y 2 29 H Mi Sec) =
       inl (ValueError "day is out of range for month")).
Proof.
  intros HY HH HM HS.
  pose proof (strip_split_bare Y 2 29 H Mi Sec ltac:(lia) ltac:(lia) ltac:(lia)
                ltac:(lia) ltac:(lia) ltac:(lia)) as E.
  split; intros Hleap.
  - apply to_datetime_of_timestamp; try assumption; try lia.
    unfold days_in_month. rewrite Hleap. cbn. lia.
  - rewrite (to_datetime_strptime _ _ E), strptime_timestamp by lia.
    unfold check_date_fields, days_in_month. rewrite Hleap.
    now rewrite !(proj2 (Z.leb_le _ _)) by lia.
Qed.

Lemma to_datetime_february_29_witness :
  to_datetime "2024-02-29 12:00:00" = inr (mk_datetime 2024 2 29 12 0 0 3) /\
  to_datetime "1900-02-29 12:00:00" =
    inl (ValueError "day is out of range for month").
Proof.
  split.
  - apply (to_datetime_february_29 2024 12 0 0); first [lia | reflexivity].
  - apply (to_datetime_february_29 1900 12 0 0); first [lia | reflexivity].
Defined.


(** ** The form that create_repo posts, the requests of a handle *)

Local Close Scope Z_scope.

Lemma count_char_app (c : ascii) (a b : string) :
  count_char c (a ++ b) = (count_char c a + count_char c b)%nat.
Proof.
  induction a as [|x a IH]; cbn [String.append count_char]; [reflexivity|].
  rewrite IH. lia.
Qed.

Lemma hex_digit_plain (n : nat) :
  Ascii.eqb "&" (hex_digit n) = false /\ Ascii.eqb "=" (hex_digit n) = false.
Proof.
  unfold hex_digit.
  do 16 (destruct n as [|n]; [split; reflexivity|]). split; reflexivity.
Qed.

Lemma unreserved_plain (c : ascii) :
  unreserved c = true ->
  Ascii.eqb "&" c = false /\ Ascii.eqb "=" c = false.
Proof.
  intros H.
  destruct (Ascii.eqb_spec "&" c) as [<-|_]; [discriminate H|].
  destruct (Ascii.eqb_spec "=" c) as [<-|_]; [discriminate H|].
  now split.
Qed.

(** [quote_plus] lets no [&] and no [=] through. *)
Lemma quote_plus_plain (s : string) :
  count_char "&" (quote_plus s) = O /\ count_char "=" (quote_plus s) = O.
Proof.
  induction s as [|c s [IH1 IH2]]; [split; reflexivity|].
  cbn [quote_plus].
  destruct (unreserved c) eqn:Hu.
  - destruct (unreserved_plain c Hu) as [H1 H2].
    cbn [count_char]. now rewrite H1, H2, IH1, IH2.
  - destruct (Ascii.eqb c " ").
    + cbn [count_char]. now rewrite IH1, IH2.
    + cbn [count_char].
      destruct (hex_digit_plain (nat_of_ascii c / 16)) as [-> ->].
      destruct (hex_digit_plain (nat_of_ascii c mod 16)) as [-> ->].
      now rewrite IH1, IH2.
Qed.

(** X16.  The form that [create_repo] posts cannot be reshaped by the
    characters of its keys and values: whatever they are, the url-encoded
    text has one [=] for each item and an [&] between consecutive items
    only. *)
Theorem urlencode_separators (repo_data : list (string * string)) :
  count_char "=" (urlencode repo_data) = length repo_data /\
  count_char "&" (urlencode repo_data) = (length repo_data - 1)%nat.
Proof.
  unfold urlencode.
  induction repo_data as [|[k v] rest [IH1 IH2]]; [split; reflexivity|].
  assert (Hitem : count_char "=" (quote_plus k ++ "=" ++ quote_plus v) = 1%nat /\
                  count_char "&" (quote_plus k ++ "=" ++ quote_plus v) = O).
  { rewrite !count_char_app. cbn [count_char].
    destruct (quote_plus_plain k) as [-> ->].
    destruct (quote_plus_plain v) as [-> ->]. now split. }
  destruct Hitem as [E1 E2].
  destruct rest as [|kv rest].
  - cbn [map join fst snd length]. now split.
  - set (items := map (fun kv => quote_plus kv.1 ++ "=" ++ quote_plus kv.2)
                    (kv :: rest)) in *.
    assert (Hjoin : join "&" (map (fun kv => quote_plus kv.1 ++ "=" ++ quote_plus kv.2)
                                ((k, v) :: kv :: rest)) =
                    (quote_plus k ++ "=" ++ quote_plus v) ++ "&" ++ join "&" items)
      by reflexivity.
    rewrite Hjoin.
    rewrite !(count_char_app _ (quote_plus k ++ "=" ++ quote_plus v)),
      !(count_char_app _ "&"), E1, E2, IH1, IH2.
    cbn [count_char length Ascii.eqb Bool.eqb]. split; lia.
Qed.

Section HandleRequests.
Context (env : Env).

(** What [get] and [get_repos] transmit, from what [build_request]
    answers. *)
Lemma user_fetch_request (self : User.t) (evs : list event) (url : string) :
  transmitted
    (log (snd ((payload ← via_bb (load_url env url "GET" None);
                text ← decode env payload;
                loads env text) (Store self evs)))) =
  (transmitted evs ++
   match fst (build_request env url "GET" None (Store (User.bb self) evs)) with
   | inl _ => []
   | inr r => [r]
   end)%list.
Proof.
  rewrite user_fetch_run. cbv zeta. cbn [snd log].
  apply load_url_outcome.
Qed.

End HandleRequests.

(** X17.  The requests of a handle carry the credentials of its client.
    For a client whose OAuth fields are not both set, the one request that
    [get] or [get_repos] transmits is the GET of the URL with the Basic
    header of the client as its only header when the client has a username
    and a password, and without any header when it has not. *)
Theorem handle_requests_carry_client_credentials (env : Env) (bb : BitBucket.t)
    (username : option string) (u : string) (evs : list event) :
  ~ oauth_set bb ->
  let profile_url :=
    match username with
    | None => api_base ++ "user/"
    | Some name => api_base ++ "teams/" ++ name
    end in
  let repos_url := api_base ++ "repositories/" ++ u ++ "?pagelen=100" in
  let request url :=
    set_get_method "GET"
      (Request_init url None [("Authorization", basic_token bb)]) in
  (basic_set bb ->
     transmitted (log (snd (get env (Store (User.mk bb username) evs)))) =
       (transmitted evs ++ [request profile_url])%list /\
     transmitted (log (snd (get_repos env (Store (User.mk bb (Some u)) evs)))) =
       (transmitted evs ++ [request repos_url])%list) /\
  (~ basic_set bb ->
     transmitted (log (snd (get env (Store (User.mk bb username) evs)))) =
       (transmitted evs ++ [Request_init profile_url None []])%list /\
     transmitted (log (snd (get_repos env (Store (User.mk bb (Some u)) evs)))) =
       (transmitted evs ++ [Request_init repos_url None []])%list).
Proof.
  intros Ho profile_url repos_url request.
  assert (Hget : get env (Store (User.mk bb username) evs) =
                 (payload ← via_bb (load_url env profile_url "GET" None);
                  text ← decode env payload;
                  loads env text) (Store (User.mk bb username) evs)).
  { unfold get. rewrite bind_run. unfold get_self at 1. reflexivity. }
  assert (Hrepos : get_repos env (Store (User.mk bb (Some u)) evs) =
                   (payload ← via_bb (load_url env repos_url "GET" None);
                    text ← decode env payload;
                    loads env text) (Store (User.mk bb (Some u)) evs)).
  { unfold get_repos. rewrite bind_run. unfold get_self at 1. reflexivity. }
  rewrite Hget, Hrepos, !user_fetch_request. cbn [User.bb].
  split; intros Hb.
  - now rewrite !(build_request_basic env _ _ _ _ _ (oauth_unset_all _ Ho)
                    (basic_set_all _ Hb)).
  - now rewrite !(build_request_anonymous env _ _ _ _ _ (oauth_unset_all _ Ho)
                    (basic_unset_all _ Hb)).
Qed.

Lemma handle_requests_carry_client_credentials_witness :
  transmitted (log (snd (get_repos (stub_env true "{}")
                           (Store (User.mk alice (Some "alice")) [])))) =
  [set_get_method "GET"
     (Request_init "https://api.bitbucket.org/2.0/repositories/alice?pagelen=100"
        None [("Authorization", "Basic YWxpY2U6czNjcmV0")])] /\
  transmitted (log (snd (get (stub_env true "{}")
                           (Store (User.mk anonymous None) [])))) =
  [Request_init "https://api.bitbucket.org/2.0/user/" None []].
Proof.
  split.
  - destruct (handle_requests_carry_client_credentials (stub_env true "{}")
                alice None "alice" []) as [H _].
    + intros [Hk _]. now apply Hk.
    + apply H. split; discriminate.
  - destruct (handle_requests_carry_client_credentials (stub_env true "{}")
                anonymous None "alice" []) as [_ H].
    + intros [Hk _]. now apply Hk.
    + apply H. intros [Hk _]. now apply Hk.
Defined.
